(** * GestureFlow: particle simulation, gesture interpreter and drawing tool

    A shallow embedding of the logic of [App.tsx], [types.ts],
    [components/ParticleScene.tsx] and [components/DrawingCanvas.tsx].

    Numbers.  A JavaScript [number] is read as a real number, so that
    [Math.sqrt], [Math.sin], [Math.cos], [Math.acos], [Math.PI] and
    [Math.floor] are [sqrt], [sin], [cos], [acos], [PI] and [Zfloor]; the
    rounding of the arithmetic and of the [Float32Array] stores is left out.

    Randomness.  [Math.random()] reads the next element of an explicit
    sequence of draws; the sequence and a cursor are threaded through the
    code in a small state monad, in the order in which JavaScript evaluates
    the calls (left to right, statement after statement).

    Buffers.  The three [Float32Array]s hold three consecutive components per
    particle; slot [i] (indices [3i], [3i+1], [3i+2]) is one [Vec3] here. *)

From Stdlib Require Import Reals Lra Lia ZArith List Bool String.
Import ListNotations.

Local Open Scope R_scope.

Set Warnings "-abstract-large-number".

(** ** types.ts *)

Module Types.

Inductive ParticleShape : Set :=
| NEBULA
| SPHERE
| CUBE
| RING
| CUSTOM.

Record ParticleConfig : Type := mkConfig {
  density : R;
  diffusion : R;
  color : string;
  size : R
}.

(** [{ x, y, z }], also [THREE.Vector3] and a MediaPipe landmark. *)
Record Vec3 : Type := vec3 { vx : R; vy : R; vz : R }.

Record HandState : Type := mkHandState {
  isDetected : bool;
  isPinched : bool;
  handPosition : Vec3;
  pinchDistance : R
}.

(** Euclidean length of a vector. *)
Definition norm (v : Vec3) : R :=
  sqrt (vx v * vx v + vy v * vy v + vz v * vz v).

(** Euclidean distance between two points. *)
Definition distance (a b : Vec3) : R :=
  sqrt ((vx a - vx b) ^ 2 + (vy a - vy b) ^ 2 + (vz a - vz b) ^ 2).

(** [a < b] on numbers, as a boolean. *)
Definition Rltb (a b : R) : bool := if Rlt_dec a b then true else false.

(** [a !== b] on numbers. *)
Definition Rneqb (a b : R) : bool := if Req_dec_T a b then false else true.

End Types.

Import Types.

(** ** Math.random *)

Module Rand.

(** The draws still to come: a sequence and the position of the next one. *)
Record Source : Type := mkSource { draws : nat -> R; cursor : nat }.

Definition M (A : Type) : Type := Source -> A * Source.

Definition ret {A} (a : A) : M A := fun s => (a, s).

Definition bind {A B} (m : M A) (k : A -> M B) : M B :=
  fun s => let (a, s') := m s in k a s'.

(** One call of [Math.random()]. *)
Definition random : M R :=
  fun s => (draws s (cursor s), mkSource (draws s) (S (cursor s))).

(** [Math.random] returns a number in [0, 1). *)
Definition unit_draws (s : Source) : Prop :=
  forall n, 0 <= draws s n < 1.

(** The source whose draws are all [c]. *)
Definition constant (c : R) : Source := mkSource (fun _ => c) 0.

(** A loop body run for the indices [i, i+1, ..., i+n-1]. *)
Fixpoint for_each {A} (body : nat -> M A) (i n : nat) : M (list A) :=
  match n with
  | O => ret []
  | S n' =>
      bind (body i) (fun a =>
      bind (for_each body (S i) n') (fun l => ret (a :: l)))
  end.

(** A computation that only moves the cursor. *)
Definition keeps_draws {A} (m : M A) : Prop :=
  forall s, draws (snd (m s)) = draws s.

End Rand.

Notation "x <- m ;; k" := (Rand.bind m (fun x => k))
  (at level 61, m at next level, right associativity).

(** ** components/ParticleScene.tsx *)

Module ParticleScene.

Import Rand.

Definition PARTICLE_COUNT : nat := 15000.

(** *** The target-generation effect *)

(** [const count = Math.floor(PARTICLE_COUNT * config.density)] *)
Definition target_count (N : nat) (density : R) : Z :=
  Zfloor (INR N * density).

(** The guard [i > count] of the loop body. *)
Definition exiled (count : Z) (i : nat) : bool := (count <? Z.of_nat i)%Z.

(** The first branch: a point of the cube of side 50. *)
Definition deep_space : M Vec3 :=
  r1 <- random ;; r2 <- random ;; r3 <- random ;;
  ret (vec3 ((r1 - 0.5) * 50) ((r2 - 0.5) * 50) ((r3 - 0.5) * 50)).

Definition nebula_target (diffusion : R) : M Vec3 :=
  r1 <- random ;; r2 <- random ;; r3 <- random ;;
  let r := r1 * 3 * diffusion in
  let theta := r2 * PI * 2 in
  let phi := acos (2 * r3 - 1) in
  ret (vec3 (r * sin phi * cos theta) (r * sin phi * sin theta) (r * cos phi)).

Definition sphere_target (diffusion : R) : M Vec3 :=
  u <- random ;; v <- random ;;
  let thetaS := 2 * PI * u in
  let phiS := acos (2 * v - 1) in
  let radius := 2.5 * diffusion in
  ret (vec3 (radius * sin phiS * cos thetaS)
            (radius * sin phiS * sin thetaS)
            (radius * cos phiS)).

Definition cube_target (diffusion : R) : M Vec3 :=
  let side := 4 * diffusion in
  r1 <- random ;; r2 <- random ;; r3 <- random ;;
  ret (vec3 ((r1 - 0.5) * side) ((r2 - 0.5) * side) ((r3 - 0.5) * side)).

Definition ring_target (diffusion : R) : M Vec3 :=
  let rInner := 2 * diffusion in
  let rOuter := 3 * diffusion in
  r1 <- random ;; r2 <- random ;; r3 <- random ;;
  let angle := r1 * PI * 2 in
  let rad := rInner + r2 * (rOuter - rInner) in
  ret (vec3 (cos angle * rad) (sin angle * rad) ((r3 - 0.5) * 0.5)).

(** [customPoints[i % customPoints.length]], with jitter; a flat random
    cluster when nothing was drawn. *)
Definition custom_target (diffusion : R) (customPoints : list Vec3) (i : nat)
  : M Vec3 :=
  match customPoints with
  | p0 :: _ =>
      let pt := nth (i mod List.length customPoints) customPoints p0 in
      r1 <- random ;; r2 <- random ;; r3 <- random ;;
      ret (vec3 (vx pt * 5 * diffusion + (r1 - 0.5) * 0.2)
                (vy pt * 5 * diffusion + (r2 - 0.5) * 0.2)
                (vz pt + (r3 - 0.5) * 0.5))
  | [] =>
      r1 <- random ;; r2 <- random ;;
      ret (vec3 ((r1 - 0.5) * 5) ((r2 - 0.5) * 5) 0)
  end.

(** The [switch (shape)]. *)
Definition shape_target (shape : ParticleShape) (diffusion : R)
    (customPoints : list Vec3) (i : nat) : M Vec3 :=
  match shape with
  | NEBULA => nebula_target diffusion
  | SPHERE => sphere_target diffusion
  | CUBE => cube_target diffusion
  | RING => ring_target diffusion
  | CUSTOM => custom_target diffusion customPoints i
  end.

(** The body of the loop: the target written to slot [i]. *)
Definition gen_target (shape : ParticleShape) (diffusion : R)
    (customPoints : list Vec3) (count : Z) (i : nat) : M Vec3 :=
  if exiled count i then deep_space
  else shape_target shape diffusion customPoints i.

(** The effect: every slot of [targets] is overwritten, [i = 0 .. N-1]. *)
Definition update_targets (N : nat) (shape : ParticleShape)
    (config : ParticleConfig) (customPoints : list Vec3) : M (list Vec3) :=
  let diffusion := diffusion config in
  let count := target_count N (density config) in
  for_each (gen_target shape diffusion customPoints count) 0 N.

(** The slots of [0 .. N-1] that take the first branch. *)
Definition exiled_indices (N : nat) (density : R) : list nat :=
  filter (exiled (target_count N density)) (seq 0 N).

(** *** The per-frame update *)

(** [viewport] of [useThree()]. *)
Record Viewport : Type := mkViewport { width : R; height : R }.

Definition explosionForce : R := 0.5.

Definition isExploding (h : HandState) : bool :=
  isDetected h && isPinched h.

Definition lerpFactor (h : HandState) : R :=
  if isExploding h then 0.02 else 0.08.

Definition handX (h : HandState) (vp : Viewport) : R :=
  vx (handPosition h) * width vp / 2.

Definition handY (h : HandState) (vp : Viewport) : R :=
  vy (handPosition h) * height vp / 2.

(** The point the particles are pushed away from. *)
Definition reference (h : HandState) (vp : Viewport) : Vec3 :=
  vec3 (if isDetected h then - handX h vp * 5 else 0)
       (if isDetected h then - handY h vp * 5 else 0)
       0.

(** [Math.sqrt(dx*dx + dy*dy + dz*dz) + 0.1] *)
Definition explode_dist (dx dy dz : R) : R :=
  sqrt (dx * dx + dy * dy + dz * dz) + 0.1.

(** The exploding branch: the new velocity. *)
Definition explode_velocity (ref p v : Vec3) : M Vec3 :=
  let dx := vx p - vx ref in
  let dy := vy p - vy ref in
  let dz := vz p - vz ref in
  let dist := explode_dist dx dy dz in
  r1 <- random ;; r2 <- random ;; r3 <- random ;;
  ret (vec3 (vx v + (dx / dist) * explosionForce * r1)
            (vy v + (dy / dist) * explosionForce * r2)
            (vz v + (dz / dist) * explosionForce * r3)).

(** The loop body for particle [i]: new position and new velocity. *)
Definition step_particle (h : HandState) (vp : Viewport) (elapsedTime : R)
    (i : nat) (p t v : Vec3) : M (Vec3 * Vec3) :=
  if isExploding h then
    v' <- explode_velocity (reference h vp) p v ;;
    ret (vec3 (vx p + vx v') (vy p + vy v') (vz p + vz v'), v')
  else
    let v' := vec3 (vx v * 0.90) (vy v * 0.90) (vz v * 0.90) in
    let px := vx p + (vx t - vx p) * lerpFactor h in
    let py := vy p + (vy t - vy p) * lerpFactor h in
    let pz := vz p + (vz t - vz p) * lerpFactor h in
    let px := px + sin (elapsedTime + INR i) * 0.002 in
    let py := py + cos (elapsedTime + INR i) * 0.002 in
    ret (vec3 (px + vx v') (py + vy v') (pz + vz v'), v').

Record Buffers : Type := mkBuffers {
  positions : list Vec3;
  targets : list Vec3;
  velocities : list Vec3
}.

(** The loop over the slots, from slot [i] on. *)
Fixpoint step_from (h : HandState) (vp : Viewport) (elapsedTime : R)
    (i : nat) (ps ts vs : list Vec3) : M (list Vec3 * list Vec3) :=
  match ps, ts, vs with
  | p :: ps', t :: ts', v :: vs' =>
      pv <- step_particle h vp elapsedTime i p t v ;;
      rest <- step_from h vp elapsedTime (S i) ps' ts' vs' ;;
      ret (fst pv :: fst rest, snd pv :: snd rest)
  | _, _, _ => ret ([], [])
  end.

(** The [useFrame] callback; nothing happens before the points are
    mounted ([if (!pointsRef.current) return]). *)
Definition useFrame (mounted : bool) (h : HandState) (vp : Viewport)
    (elapsedTime : R) (b : Buffers) : M Buffers :=
  if mounted then
    pv <- step_from h vp elapsedTime 0 (positions b) (targets b) (velocities b) ;;
    ret (mkBuffers (fst pv) (targets b) (snd pv))
  else ret b.

(** *** The initial positions effect *)

(** One iteration: a point of the box [-10, 10) x [-10, 10) x [-10, 0). *)
Definition init_position : M Vec3 :=
  r1 <- random ;; r2 <- random ;; r3 <- random ;;
  let x := (r1 - 0.5) * 20 in
  let y := (r2 - 0.5) * 20 in
  let z := (r3 - 0.5) * 10 - 5 in
  ret (vec3 x y z).

(** The effect: the new [positions] and [initialPositions]. *)
Definition init_positions (N : nat) : M (list Vec3 * list Vec3) :=
  l <- for_each (fun _ => init_position) 0 N ;;
  ret (l, l).

End ParticleScene.

(** ** components/DrawingCanvas.tsx *)

Module DrawingCanvas.

(** A captured pointer position [{ x, y }], in pixels. *)
Record Point2 : Type := pt2 { px : R; py : R }.

(** [canvasRef.current], as far as the release handler reads it. *)
Record Canvas : Type := mkCanvas { width : R; height : R }.

(** [window.innerWidth], [window.innerHeight]. *)
Record Window : Type := mkWindow { innerWidth : R; innerHeight : R }.

Record State : Type := mkState {
  isDrawing : bool;
  pointsRef : list Point2
}.

(** The body of the [map] callback. *)
Definition normalize (width height : R) (p : Point2) : Vec3 :=
  let nx := (px p / width) * 2 - 1 in
  let ny := - (py p / height) * 2 + 1 in
  vec3 nx ny 0.

(** [stopDrawing]: the new component state and, when the callback
    [onPointsGenerated] is invoked, its argument. *)
Definition stopDrawing (canvas : option Canvas) (w : Window) (st : State)
  : State * option (list Vec3) :=
  let st' := mkState false (pointsRef st) in
  if (0 <? List.length (pointsRef st))%nat then
    let width := match canvas with Some c => width c | None => innerWidth w end in
    let height := match canvas with Some c => height c | None => innerHeight w end in
    let newPoints := map (normalize width height) (pointsRef st) in
    (st', Some newPoints)
  else (st', None).

(** A touch point of a touch event. *)
Record Touch : Type := mkTouch { clientX : R; clientY : R }.

(** A mouse event, or a touch event (the one with a [touches] list). *)
Inductive PointerEvent : Type :=
| MouseEvent (x y : R)
| TouchEvent (touches : list Touch).

(** [canvasRef.current] as [draw] reads it: the canvas, whether
    [getContext('2d')] gives a context, and the corner of
    [getBoundingClientRect()]. *)
Record Surface : Type := mkSurface {
  canvas : Canvas;
  hasContext : bool;
  rectLeft : R;
  rectTop : R
}.

(** [clientX], [clientY] of the event; [None] when [e.touches[0]] is
    missing (a [TypeError] in the source). *)
Definition client (e : PointerEvent) : option (R * R) :=
  match e with
  | TouchEvent touches =>
      match touches with
      | t :: _ => Some (clientX t, clientY t)
      | [] => None
      end
  | MouseEvent x y => Some (x, y)
  end.

(** [draw]: the stroke painted on the canvas is left out. *)
Definition draw (surface : option Surface) (e : PointerEvent) (st : State)
  : option State :=
  if negb (isDrawing st) then Some st
  else
    match surface with
    | None => Some st
    | Some sf =>
        if negb (hasContext sf) then Some st
        else
          match client e with
          | None => None
          | Some (cx, cy) =>
              let x := cx - rectLeft sf in
              let y := cy - rectTop sf in
              Some (mkState (isDrawing st) (pointsRef st ++ [pt2 x y]))
          end
    end.

(** [startDrawing]: [setIsDrawing(true)] takes effect at the next render;
    the call [draw(e)] inside still sees the [isDrawing] of this render. *)
Definition startDrawing (surface : option Surface) (e : PointerEvent)
    (st : State) : option State :=
  match draw surface e (mkState (isDrawing st) []) with
  | Some st' => Some (mkState true (pointsRef st'))
  | None => None
  end.

End DrawingCanvas.

(** ** App.tsx *)

Module App.

(** The state of [App] that the drawing handler touches. *)
Record State : Type := mkState {
  shape : ParticleShape;
  isDrawing : bool;
  customPoints : list Vec3
}.

Definition handlePointsGenerated (points : list Vec3) (a : State) : State :=
  mkState CUSTOM false points.

(** [<DrawingCanvas onPointsGenerated={handlePointsGenerated} />] with
    [onMouseUp={stopDrawing}]: a release of the pointer. *)
Definition release (canvas : option DrawingCanvas.Canvas)
    (w : DrawingCanvas.Window) (a : State) (dc : DrawingCanvas.State)
  : State * DrawingCanvas.State :=
  let (dc', out) := DrawingCanvas.stopDrawing canvas w dc in
  (match out with
   | Some points => handlePointsGenerated points a
   | None => a
   end, dc').

(** What [detectHands] returns: [null], or the landmark lists of the hands
    found. *)
Record HandLandmarkerResult : Type := mkResult {
  landmarks : list (list Vec3)
}.

(** The first branch of [animate]; [None] when a landmark that is read is
    missing (a [TypeError] in the source). *)
Definition interpret (landmarks : list Vec3) : option HandState :=
  match nth_error landmarks 4, nth_error landmarks 8,
        nth_error landmarks 0, nth_error landmarks 9 with
  | Some thumbTip, Some indexTip, Some wrist, Some middle =>
      let distance :=
        sqrt ((vx thumbTip - vx indexTip) ^ 2 +
              (vy thumbTip - vy indexTip) ^ 2 +
              (vz thumbTip - vz indexTip) ^ 2) in
      let centerX := (vx wrist + vx middle) / 2 in
      let centerY := (vy wrist + vy middle) / 2 in
      let mirroredX := (centerX - 0.5) * -2 in
      let normalizedY := (centerY - 0.5) * -2 in
      let isPinched := Rltb distance 0.08 in
      Some (mkHandState true isPinched (vec3 mirroredX normalizedY 0) distance)
  | _, _, _, _ => None
  end.

(** [prev => ({ ...prev, isDetected: false, isPinched: false })] *)
Definition no_hand (prev : HandState) : HandState :=
  mkHandState false false (handPosition prev) (pinchDistance prev).

(** The hand state set for a processed frame. *)
Definition setHandState (result : option HandLandmarkerResult)
    (prev : HandState) : option HandState :=
  match result with
  | Some r =>
      match landmarks r with
      | hand :: _ => interpret hand
      | [] => Some (no_hand prev)
      end
  | None => Some (no_hand prev)
  end.

(** Whether a hand was found: [result && result.landmarks.length > 0]. *)
Definition hand_found (result : option HandLandmarkerResult) : bool :=
  match result with
  | Some r => (0 <? List.length (landmarks r))%nat
  | None => false
  end.

Record Vision : Type := mkVision {
  lastVideoTime : R;
  handState : HandState
}.

(** One run of [animate]: a frame is processed when the video time has
    advanced. *)
Definition animate (currentTime : R) (result : option HandLandmarkerResult)
    (st : Vision) : option Vision :=
  if Rneqb currentTime (lastVideoTime st) then
    match setHandState result (handState st) with
    | Some h => Some (mkVision currentTime h)
    | None => None
    end
  else Some st.

(** The initial hand state of [useState]. *)
Definition initialHandState : HandState :=
  mkHandState false false (vec3 0 0 0) 1.0.

End App.

(** ** The update rules in the words of the specification *)

Module Spec.

(** Velocity times 0.90 componentwise; position moved by
    [(target - position) * 0.08]; the jitter of amplitude 0.002 and phase
    [elapsedTime + i] added (sine on x, cosine on y); the damped velocity
    added to the position. *)
Definition aggregation_update (elapsedTime : R) (i : nat) (p t v : Vec3)
  : Vec3 * Vec3 :=
  let damped := vec3 (vx v * 0.90) (vy v * 0.90) (vz v * 0.90) in
  let pulled := vec3 (vx p + (vx t - vx p) * 0.08)
                     (vy p + (vy t - vy p) * 0.08)
                     (vz p + (vz t - vz p) * 0.08) in
  let jittered := vec3 (vx pulled + sin (elapsedTime + INR i) * 0.002)
                       (vy pulled + cos (elapsedTime + INR i) * 0.002)
                       (vz pulled) in
  (vec3 (vx jittered + vx damped) (vy jittered + vy damped)
        (vz jittered + vz damped),
   damped).

(** Each component of the velocity has the sign of the same component of
    the offset of the particle from the reference point (or is zero). *)
Definition aligned (ref p v : Vec3) : Prop :=
  0 <= vx v * (vx p - vx ref) /\
  0 <= vy v * (vy p - vy ref) /\
  0 <= vz v * (vz p - vz ref).

(** [n] consecutive frames of one particle under the same hand state. *)
Fixpoint run_frames (h : HandState) (vp : ParticleScene.Viewport)
    (elapsedTime : R) (i n : nat) (p t v : Vec3) : Rand.M (Vec3 * Vec3) :=
  match n with
  | O => Rand.ret (p, v)
  | S n' =>
      pv <- ParticleScene.step_particle h vp elapsedTime i p t v ;;
      run_frames h vp elapsedTime i n' (fst pv) t (snd pv)
  end.

End Spec.

(** ** Sequences of frames and of pointer events *)

Module Trace.

(** One particle over a sequence of frames, each with the hand state and the
    clock reading of that frame; the target stays where it is. *)
Fixpoint run_schedule (vp : ParticleScene.Viewport) (i : nat) (t : Vec3)
    (frames : list (HandState * R)) (p v : Vec3) : Rand.M (Vec3 * Vec3) :=
  match frames with
  | [] => Rand.ret (p, v)
  | (h, elapsedTime) :: rest =>
      pv <- ParticleScene.step_particle h vp elapsedTime i p t v ;;
      run_schedule vp i t rest (fst pv) (snd pv)
  end.

(** All the frames of a schedule are aggregation frames. *)
Definition all_calm (frames : list (HandState * R)) : Prop :=
  Forall (fun f => ParticleScene.isExploding (fst f) = false) frames.

(** The pointer moves of a stroke, handled one after the other. *)
Fixpoint draw_all (surface : option DrawingCanvas.Surface)
    (events : list DrawingCanvas.PointerEvent) (st : DrawingCanvas.State)
  : option DrawingCanvas.State :=
  match events with
  | [] => Some st
  | e :: rest =>
      match DrawingCanvas.draw surface e st with
      | Some st' => draw_all surface rest st'
      | None => None
      end
  end.

(** The point that [draw] captures for a mouse position. *)
Definition captured (sf : DrawingCanvas.Surface) (m : R * R)
  : DrawingCanvas.Point2 :=
  DrawingCanvas.pt2 (fst m - DrawingCanvas.rectLeft sf)
                    (snd m - DrawingCanvas.rectTop sf).

(** No component of [v'] is larger in absolute value than the same
    component of [v] plus [c]. *)
Definition within (c : R) (v v' : Vec3) : Prop :=
  Rabs (vx v') <= Rabs (vx v) + c /\
  Rabs (vy v') <= Rabs (vy v) + c /\
  Rabs (vz v') <= Rabs (vz v) + c.

(** The coordinate reached after [n] aggregation frames without jitter,
    from the start [a] with velocity [v] towards the target [b]. *)
Definition settled (n : nat) (a b v : R) : R :=
  b + 0.92 ^ n * (a - b) + 45 * v * (0.92 ^ n - 0.9 ^ n).

End Trace.

(** * Properties *)

Import Rand ParticleScene.

(** ** Numbers *)

Lemma Rltb_true_iff (a b : R) : Rltb a b = true <-> a < b.
Proof.
  unfold Rltb. destruct (Rlt_dec a b) as [Hlt | Hge].
  - split; auto.
  - split; [discriminate | contradiction].
Qed.

Lemma Rltb_irrefl (a : R) : Rltb a a = false.
Proof.
  unfold Rltb. destruct (Rlt_dec a a) as [Hlt | _]; [| reflexivity].
  exfalso. exact (Rlt_irrefl a Hlt).
Qed.

Lemma Rneqb_true (a b : R) : a <> b -> Rneqb a b = true.
Proof.
  intros Hne. unfold Rneqb. destruct (Req_dec_T a b); [contradiction | reflexivity].
Qed.

(** ** The gesture interpreter *)

Section Gesture.

Variable hand : list Vec3.
Variables thumbTip indexTip : Vec3.
Hypothesis hand_size : List.length hand = 21%nat.
Hypothesis thumb_at_4 : nth_error hand 4 = Some thumbTip.
Hypothesis index_at_8 : nth_error hand 8 = Some indexTip.

Lemma interpret_returns :
  exists wrist middle,
    nth_error hand 0 = Some wrist /\ nth_error hand 9 = Some middle /\
    App.interpret hand =
      Some (mkHandState true
              (Rltb (distance thumbTip indexTip) 0.08)
              (vec3 (((vx wrist + vx middle) / 2 - 0.5) * -2)
                    (((vy wrist + vy middle) / 2 - 0.5) * -2) 0)
              (distance thumbTip indexTip)).
Proof.
  destruct (nth_error hand 0) as [wrist |] eqn:H0;
    [| apply nth_error_None in H0; lia].
  destruct (nth_error hand 9) as [middle |] eqn:H9;
    [| apply nth_error_None in H9; lia].
  exists wrist, middle. repeat split.
  unfold App.interpret. rewrite thumb_at_4, index_at_8, H0, H9. reflexivity.
Qed.

End Gesture.

(** C4.  For a detected hand (21 landmarks), the hand state that is set has
    its pinch flag true exactly when the Euclidean distance between
    landmark 4 (thumb tip) and landmark 8 (index tip) is strictly below
    0.08; at a distance of exactly 0.08 the flag is false. *)
Theorem pinch_flag_threshold
    (hand : list Vec3) (others : list (list Vec3))
    (thumbTip indexTip : Vec3) (prev : HandState) :
  List.length hand = 21%nat ->
  nth_error hand 4 = Some thumbTip ->
  nth_error hand 8 = Some indexTip ->
  exists h,
    App.setHandState (Some (App.mkResult (hand :: others))) prev = Some h /\
    isDetected h = true /\
    pinchDistance h = distance thumbTip indexTip /\
    (isPinched h = true <-> distance thumbTip indexTip < 0.08) /\
    (distance thumbTip indexTip = 0.08 -> isPinched h = false).
Proof.
  intros Hlen H4 H8.
  destruct (interpret_returns hand thumbTip indexTip Hlen H4 H8)
    as (wrist & middle & _ & _ & Hrun).
  eexists. split; [simpl; exact Hrun |].
  simpl. repeat split.
  - apply Rltb_true_iff.
  - apply Rltb_true_iff.
  - intros Heq. rewrite Heq. apply Rltb_irrefl.
Qed.

Lemma pinch_flag_threshold_witness :
  exists h,
    App.setHandState
      (Some (App.mkResult [repeat (vec3 0 0 0) 21])) App.initialHandState
      = Some h /\
    isDetected h = true /\
    pinchDistance h = distance (vec3 0 0 0) (vec3 0 0 0) /\
    (isPinched h = true <-> distance (vec3 0 0 0) (vec3 0 0 0) < 0.08) /\
    (distance (vec3 0 0 0) (vec3 0 0 0) = 0.08 -> isPinched h = false).
Proof.
  apply (pinch_flag_threshold (repeat (vec3 0 0 0) 21) [] (vec3 0 0 0)
           (vec3 0 0 0) App.initialHandState); reflexivity.
Defined.

(** C8.  When a processed frame shows no hand, the new hand state has
    [isDetected = false] and [isPinched = false], and its [handPosition] and
    [pinchDistance] are those of the previous hand state. *)
Theorem no_hand_keeps_position
    (currentTime : R) (result : option App.HandLandmarkerResult)
    (st : App.Vision) :
  currentTime <> App.lastVideoTime st ->
  App.hand_found result = false ->
  exists h,
    App.animate currentTime result st = Some (App.mkVision currentTime h) /\
    isDetected h = false /\
    isPinched h = false /\
    handPosition h = handPosition (App.handState st) /\
    pinchDistance h = pinchDistance (App.handState st).
Proof.
  intros Htime Hnone.
  exists (App.no_hand (App.handState st)).
  split; [| repeat split].
  unfold App.animate. rewrite (Rneqb_true _ _ Htime).
  destruct result as [[[| hand others]] |]; simpl in *;
    try reflexivity; discriminate.
Qed.

Lemma no_hand_keeps_position_witness :
  exists h,
    App.animate 1 None (App.mkVision 0 (mkHandState true true (vec3 0.25 0.5 0) 0.05))
      = Some (App.mkVision 1 h) /\
    isDetected h = false /\
    isPinched h = false /\
    handPosition h = vec3 0.25 0.5 0 /\
    pinchDistance h = 0.05.
Proof.
  apply (no_hand_keeps_position 1 None
           (App.mkVision 0 (mkHandState true true (vec3 0.25 0.5 0) 0.05)));
    [simpl; lra | reflexivity].
Defined.

(** ** The drawing tool *)

Lemma stopDrawing_some
    (canvas : option DrawingCanvas.Canvas) (w : DrawingCanvas.Window)
    (st : DrawingCanvas.State) :
  DrawingCanvas.pointsRef st <> [] ->
  DrawingCanvas.stopDrawing canvas w st =
    (DrawingCanvas.mkState false (DrawingCanvas.pointsRef st),
     Some (map (DrawingCanvas.normalize
                  (match canvas with
                   | Some c => DrawingCanvas.width c
                   | None => DrawingCanvas.innerWidth w
                   end)
                  (match canvas with
                   | Some c => DrawingCanvas.height c
                   | None => DrawingCanvas.innerHeight w
                   end))
               (DrawingCanvas.pointsRef st))).
Proof.
  intros Hne. unfold DrawingCanvas.stopDrawing.
  destruct (DrawingCanvas.pointsRef st) as [| p ps]; [contradiction | reflexivity].
Qed.

Lemma normalize_corners (width height : R) :
  width <> 0 -> height <> 0 ->
  DrawingCanvas.normalize width height (DrawingCanvas.pt2 0 0) = vec3 (-1) 1 0 /\
  DrawingCanvas.normalize width height (DrawingCanvas.pt2 width height)
    = vec3 1 (-1) 0.
Proof.
  intros Hw Hh. unfold DrawingCanvas.normalize. simpl.
  split; f_equal; field; assumption.
Qed.

(** C7.  On release of a stroke with captured points, the callback receives
    the captured points in capture order, one output point per captured
    point, pixel [(x, y)] being sent to [((x/width)*2-1, -(y/height)*2+1, 0)];
    pixel [(0, 0)] goes to [(-1, 1)] and pixel [(width, height)] to
    [(1, -1)]. *)
Theorem stroke_release_normalizes
    (c : DrawingCanvas.Canvas) (w : DrawingCanvas.Window)
    (st : DrawingCanvas.State) :
  DrawingCanvas.pointsRef st <> [] ->
  0 < DrawingCanvas.width c ->
  0 < DrawingCanvas.height c ->
  snd (DrawingCanvas.stopDrawing (Some c) w st) =
    Some (map (fun p =>
                 vec3 ((DrawingCanvas.px p / DrawingCanvas.width c) * 2 - 1)
                      (- (DrawingCanvas.py p / DrawingCanvas.height c) * 2 + 1)
                      0)
              (DrawingCanvas.pointsRef st)) /\
  DrawingCanvas.normalize (DrawingCanvas.width c) (DrawingCanvas.height c)
    (DrawingCanvas.pt2 0 0) = vec3 (-1) 1 0 /\
  DrawingCanvas.normalize (DrawingCanvas.width c) (DrawingCanvas.height c)
    (DrawingCanvas.pt2 (DrawingCanvas.width c) (DrawingCanvas.height c))
    = vec3 1 (-1) 0.
Proof.
  intros Hne Hw Hh. split.
  - rewrite (stopDrawing_some (Some c) w st Hne). reflexivity.
  - apply normalize_corners; lra.
Qed.

Lemma stroke_release_normalizes_witness :
  snd (DrawingCanvas.stopDrawing
         (Some (DrawingCanvas.mkCanvas 800 600))
         (DrawingCanvas.mkWindow 800 600)
         (DrawingCanvas.mkState true
            [DrawingCanvas.pt2 0 0; DrawingCanvas.pt2 400 300;
             DrawingCanvas.pt2 400 300; DrawingCanvas.pt2 800 600])) =
    Some [vec3 ((0 / 800) * 2 - 1) (- (0 / 600) * 2 + 1) 0;
          vec3 ((400 / 800) * 2 - 1) (- (300 / 600) * 2 + 1) 0;
          vec3 ((400 / 800) * 2 - 1) (- (300 / 600) * 2 + 1) 0;
          vec3 ((800 / 800) * 2 - 1) (- (600 / 600) * 2 + 1) 0] /\
  DrawingCanvas.normalize 800 600 (DrawingCanvas.pt2 0 0) = vec3 (-1) 1 0 /\
  DrawingCanvas.normalize 800 600 (DrawingCanvas.pt2 800 600) = vec3 1 (-1) 0.
Proof.
  apply (stroke_release_normalizes
           (DrawingCanvas.mkCanvas 800 600) (DrawingCanvas.mkWindow 800 600)
           (DrawingCanvas.mkState true
              [DrawingCanvas.pt2 0 0; DrawingCanvas.pt2 400 300;
               DrawingCanvas.pt2 400 300; DrawingCanvas.pt2 800 600]));
    simpl; [discriminate | lra | lra].
Defined.

(** C10.  A release with no captured point does not invoke the
    points-generated callback: the stored custom points and the shape
    selector of [App] (its whole state) are unchanged. *)
Theorem empty_stroke_keeps_app_state
    (canvas : option DrawingCanvas.Canvas) (w : DrawingCanvas.Window)
    (a : App.State) (drawing : bool) :
  snd (DrawingCanvas.stopDrawing canvas w (DrawingCanvas.mkState drawing []))
    = None /\
  fst (App.release canvas w a (DrawingCanvas.mkState drawing [])) = a /\
  App.customPoints
    (fst (App.release canvas w a (DrawingCanvas.mkState drawing [])))
    = App.customPoints a /\
  App.shape (fst (App.release canvas w a (DrawingCanvas.mkState drawing [])))
    = App.shape a.
Proof. repeat split. Qed.

(** ** The per-frame update: aggregation *)

Section Aggregation.

Variable h : HandState.
Variable vp : Viewport.
Variable elapsedTime : R.
Hypothesis calm : isExploding h = false.

Lemma step_particle_calm (i : nat) (p t v : Vec3) (s : Source) :
  step_particle h vp elapsedTime i p t v s =
    (Spec.aggregation_update elapsedTime i p t v, s).
Proof.
  unfold step_particle, lerpFactor. rewrite calm. reflexivity.
Qed.

Lemma step_from_calm_cons
    (i : nat) (p t v : Vec3) (ps ts vs : list Vec3) (s : Source) :
  step_from h vp elapsedTime i (p :: ps) (t :: ts) (v :: vs) s =
    let (rest, s') := step_from h vp elapsedTime (S i) ps ts vs s in
    ((fst (Spec.aggregation_update elapsedTime i p t v) :: fst rest,
      snd (Spec.aggregation_update elapsedTime i p t v) :: snd rest), s').
Proof.
  cbn [step_from]. unfold bind. rewrite step_particle_calm.
  destruct (step_from h vp elapsedTime (S i) ps ts vs s) as [rest s'].
  reflexivity.
Qed.

Lemma step_from_calm_nth :
  forall (ps ts vs : list Vec3) (i k : nat) (p t v : Vec3) (s : Source),
    nth_error ps k = Some p ->
    nth_error ts k = Some t ->
    nth_error vs k = Some v ->
    nth_error (fst (fst (step_from h vp elapsedTime i ps ts vs s))) k
      = Some (fst (Spec.aggregation_update elapsedTime (i + k) p t v)) /\
    nth_error (snd (fst (step_from h vp elapsedTime i ps ts vs s))) k
      = Some (snd (Spec.aggregation_update elapsedTime (i + k) p t v)).
Proof.
  induction ps as [| p0 ps IH]; intros ts vs i k p t v s Hp Ht Hv.
  - destruct k; discriminate.
  - destruct ts as [| t0 ts]; [destruct k; discriminate |].
    destruct vs as [| v0 vs]; [destruct k; discriminate |].
    rewrite step_from_calm_cons.
    destruct k as [| k].
    + injection Hp as <-. injection Ht as <-. injection Hv as <-.
      rewrite Nat.add_0_r.
      destruct (step_from h vp elapsedTime (S i) ps ts vs s) as [rest s'].
      split; reflexivity.
    + simpl in Hp, Ht, Hv.
      destruct (IH ts vs (S i) k p t v s Hp Ht Hv) as [Hpos Hvel].
      replace (i + S k)%nat with (S i + k)%nat by lia.
      destruct (step_from h vp elapsedTime (S i) ps ts vs s) as [rest s'].
      split; assumption.
Qed.

End Aggregation.

(** C3.  In a frame that is not exploding, every particle is updated as
    follows: velocity multiplied by 0.90 componentwise; position incremented
    by [(target - position) * 0.08]; a sinusoidal jitter of amplitude 0.002
    and phase [elapsedTime + index] added (sine on x, cosine on y); then the
    damped velocity added to the position.  The targets are not written. *)
Theorem aggregation_frame
    (h : HandState) (vp : Viewport) (elapsedTime : R) (b : Buffers)
    (s : Source) (k : nat) (p t v : Vec3) :
  isExploding h = false ->
  nth_error (positions b) k = Some p ->
  nth_error (targets b) k = Some t ->
  nth_error (velocities b) k = Some v ->
  let b' := fst (useFrame true h vp elapsedTime b s) in
  nth_error (velocities b') k
    = Some (vec3 (vx v * 0.90) (vy v * 0.90) (vz v * 0.90)) /\
  nth_error (positions b') k
    = Some (vec3
        (vx p + (vx t - vx p) * 0.08 + sin (elapsedTime + INR k) * 0.002
           + vx v * 0.90)
        (vy p + (vy t - vy p) * 0.08 + cos (elapsedTime + INR k) * 0.002
           + vy v * 0.90)
        (vz p + (vz t - vz p) * 0.08 + vz v * 0.90)) /\
  nth_error (positions b') k
    = Some (fst (Spec.aggregation_update elapsedTime k p t v)) /\
  targets b' = targets b.
Proof.
  intros Hcalm Hp Ht Hv b'.
  destruct (step_from_calm_nth h vp elapsedTime Hcalm
              (positions b) (targets b) (velocities b) 0 k p t v s Hp Ht Hv)
    as [Hpos Hvel].
  subst b'. unfold useFrame, bind, ret.
  destruct (step_from h vp elapsedTime 0 (positions b) (targets b)
              (velocities b) s) as [out s'].
  simpl in *. repeat split; assumption.
Qed.

Lemma aggregation_frame_witness :
  let b := mkBuffers [vec3 1 2 3] [vec3 0 0 0] [vec3 1 1 1] in
  let b' := fst (useFrame true App.initialHandState (mkViewport 10 10) 0 b
                   (constant 0.5)) in
  nth_error (velocities b') 0
    = Some (vec3 (1 * 0.90) (1 * 0.90) (1 * 0.90)) /\
  nth_error (positions b') 0
    = Some (vec3
        (1 + (0 - 1) * 0.08 + sin (0 + INR 0) * 0.002 + 1 * 0.90)
        (2 + (0 - 2) * 0.08 + cos (0 + INR 0) * 0.002 + 1 * 0.90)
        (3 + (0 - 3) * 0.08 + 1 * 0.90)) /\
  nth_error (positions b') 0
    = Some (fst (Spec.aggregation_update 0 0 (vec3 1 2 3) (vec3 0 0 0)
                   (vec3 1 1 1))) /\
  targets b' = targets b.
Proof.
  exact (aggregation_frame App.initialHandState (mkViewport 10 10) 0
           (mkBuffers [vec3 1 2 3] [vec3 0 0 0] [vec3 1 1 1]) (constant 0.5)
           0 (vec3 1 2 3) (vec3 0 0 0) (vec3 1 1 1)
           eq_refl eq_refl eq_refl eq_refl).
Defined.

(** ** The per-frame update: explosion *)

Lemma explode_dist_lower (dx dy dz : R) : 0.1 <= explode_dist dx dy dz.
Proof.
  unfold explode_dist.
  pose proof (sqrt_pos (dx * dx + dy * dy + dz * dz)). lra.
Qed.

Lemma explode_dist_pos (dx dy dz : R) : 0 < explode_dist dx dy dz.
Proof. pose proof (explode_dist_lower dx dy dz). lra. Qed.

Lemma explode_dist_origin : explode_dist 0 0 0 = 0.1.
Proof.
  unfold explode_dist.
  replace (0 * 0 + 0 * 0 + 0 * 0) with 0 by ring.
  rewrite sqrt_0. lra.
Qed.

(** The new velocity of the exploding branch, with the draws named. *)
Lemma explode_velocity_run (ref p v : Vec3) (s : Source) :
  explode_velocity ref p v s =
    (let dist :=
       explode_dist (vx p - vx ref) (vy p - vy ref) (vz p - vz ref) in
     vec3 (vx v + (vx p - vx ref) / dist * explosionForce
                    * draws s (cursor s))
          (vy v + (vy p - vy ref) / dist * explosionForce
                    * draws s (S (cursor s)))
          (vz v + (vz p - vz ref) / dist * explosionForce
                    * draws s (S (S (cursor s)))),
     mkSource (draws s) (S (S (S (cursor s))))).
Proof. reflexivity. Qed.

Lemma step_particle_exploding
    (h : HandState) (vp : Viewport) (elapsedTime : R) (i : nat)
    (p t v : Vec3) (s : Source) :
  isExploding h = true ->
  step_particle h vp elapsedTime i p t v s =
    (let v' := fst (explode_velocity (reference h vp) p v s) in
     (vec3 (vx p + vx v') (vy p + vy v') (vz p + vz v'), v'),
     mkSource (draws s) (S (S (S (cursor s))))).
Proof.
  intros Hexp. unfold step_particle. rewrite Hexp.
  unfold bind at 1. rewrite explode_velocity_run. reflexivity.
Qed.

(** C9.  The divisor of the exploding branch is the Euclidean distance plus
    0.1: it is at least 0.1, hence never zero, for every particle position
    and reference point; where the particle sits on the reference point the
    divisor is 0.1 and the velocity is left as it was. *)
Theorem explode_divisor_guard (ref p v : Vec3) (s : Source) :
  let dist := explode_dist (vx p - vx ref) (vy p - vy ref) (vz p - vz ref) in
  0.1 <= dist /\
  dist <> 0 /\
  explode_dist (vx p - vx p) (vy p - vy p) (vz p - vz p) = 0.1 /\
  fst (explode_velocity p p v s) = v.
Proof.
  intros dist. split; [apply explode_dist_lower |].
  split.
  { pose proof (explode_dist_pos (vx p - vx ref) (vy p - vy ref)
                  (vz p - vz ref)). subst dist. lra. }
  split.
  { replace (vx p - vx p) with 0 by ring.
    replace (vy p - vy p) with 0 by ring.
    replace (vz p - vz p) with 0 by ring.
    apply explode_dist_origin. }
  rewrite explode_velocity_run. destruct v as [a b c]. simpl.
  f_equal; unfold Rdiv; ring.
Qed.

Section Explosion.

Variable h : HandState.
Variable vp : Viewport.
Hypothesis exploding : isExploding h = true.

Lemma step_from_exploding_targets (elapsedTime : R) :
  forall (ps ts1 ts2 vs : list Vec3) (i : nat) (s : Source),
    List.length ts1 = List.length ts2 ->
    step_from h vp elapsedTime i ps ts1 vs s
      = step_from h vp elapsedTime i ps ts2 vs s.
Proof.
  induction ps as [| p ps IH]; intros ts1 ts2 vs i s Hlen; [reflexivity |].
  destruct ts1 as [| t1 ts1], ts2 as [| t2 ts2]; try discriminate;
    [reflexivity |].
  destruct vs as [| v vs]; [reflexivity |].
  injection Hlen as Hlen.
  cbn [step_from]. unfold bind.
  rewrite !(step_particle_exploding h vp elapsedTime i p _ v s exploding).
  rewrite (IH ts1 ts2 vs (S i) _ Hlen). reflexivity.
Qed.

End Explosion.

(** C6.  While exploding the targets have no effect on the update: the
    update of a particle is the same for any two targets, its new velocity
    is the one computed from the old position, the old velocity, the
    reference point and the random draws, and its new position is the old
    position plus the new velocity; a frame run on two target buffers of the
    same length yields the same positions and velocities. *)
Theorem exploding_ignores_targets
    (h : HandState) (vp : Viewport) (elapsedTime : R) (i : nat)
    (p t1 t2 v : Vec3) (b : Buffers) (ts : list Vec3) (s : Source) :
  isExploding h = true ->
  List.length ts = List.length (targets b) ->
  step_particle h vp elapsedTime i p t1 v s
    = step_particle h vp elapsedTime i p t2 v s /\
  (let v' := fst (explode_velocity (reference h vp) p v s) in
   fst (step_particle h vp elapsedTime i p t1 v s)
     = (vec3 (vx p + vx v') (vy p + vy v') (vz p + vz v'), v')) /\
  (let b1 := fst (useFrame true h vp elapsedTime b s) in
   let b2 := fst (useFrame true h vp elapsedTime
                    (mkBuffers (positions b) ts (velocities b)) s) in
   positions b1 = positions b2 /\ velocities b1 = velocities b2).
Proof.
  intros Hexp Hlen. split; [| split].
  - rewrite !(step_particle_exploding h vp elapsedTime i p _ v s Hexp).
    reflexivity.
  - rewrite (step_particle_exploding h vp elapsedTime i p t1 v s Hexp).
    reflexivity.
  - unfold useFrame, bind. simpl.
    rewrite (step_from_exploding_targets h vp Hexp elapsedTime
               (positions b) ts (targets b) (velocities b) 0 s Hlen).
    destruct (step_from h vp elapsedTime 0 (positions b) (targets b)
                (velocities b) s) as [out s'].
    split; reflexivity.
Qed.

Lemma exploding_ignores_targets_witness :
  let h := mkHandState true true (vec3 0 0 0) 0.05 in
  let vp := mkViewport 10 10 in
  let b := mkBuffers [vec3 1 2 3] [vec3 0 0 0] [vec3 0 0 0] in
  let s := constant 0.5 in
  step_particle h vp 0 0 (vec3 1 2 3) (vec3 0 0 0) (vec3 0 0 0) s
    = step_particle h vp 0 0 (vec3 1 2 3) (vec3 7 8 9) (vec3 0 0 0) s /\
  (let v' := fst (explode_velocity (reference h vp) (vec3 1 2 3) (vec3 0 0 0) s) in
   fst (step_particle h vp 0 0 (vec3 1 2 3) (vec3 0 0 0) (vec3 0 0 0) s)
     = (vec3 (1 + vx v') (2 + vy v') (3 + vz v'), v')) /\
  (let b1 := fst (useFrame true h vp 0 b s) in
   let b2 := fst (useFrame true h vp 0
                    (mkBuffers (positions b) [vec3 7 8 9] (velocities b)) s) in
   positions b1 = positions b2 /\ velocities b1 = velocities b2).
Proof.
  exact (exploding_ignores_targets
           (mkHandState true true (vec3 0 0 0) 0.05) (mkViewport 10 10) 0 0
           (vec3 1 2 3) (vec3 0 0 0) (vec3 7 8 9) (vec3 0 0 0)
           (mkBuffers [vec3 1 2 3] [vec3 0 0 0] [vec3 0 0 0]) [vec3 7 8 9]
           (constant 0.5) eq_refl eq_refl).
Defined.

(** ** Velocity while exploding *)

Lemma component_grows (v d c : R) :
  0 <= c -> 0 <= v * d -> v * v <= (v + d * c) * (v + d * c).
Proof.
  intros Hc Hvd.
  assert (0 <= v * d * c) by (apply Rmult_le_pos; assumption).
  nra.
Qed.

Lemma component_stays_aligned (v d c : R) :
  0 <= c -> 0 <= v * d -> 0 <= (v + d * c) * (d + (v + d * c)).
Proof.
  intros Hc Hvd.
  assert (0 <= d * d * c) by (apply Rmult_le_pos; [nra | assumption]).
  nra.
Qed.

Lemma push_factor_nonneg (dist r : R) :
  0 < dist -> 0 <= r -> 0 <= / dist * explosionForce * r.
Proof.
  intros Hd Hr. unfold explosionForce.
  assert (0 < / dist) by (apply Rinv_0_lt_compat; assumption).
  apply Rmult_le_pos; [| assumption]. lra.
Qed.

Lemma unit_draws_advance (s : Source) (n : nat) :
  unit_draws s -> unit_draws (mkSource (draws s) n).
Proof. intros Hs k. apply Hs. Qed.

Lemma unit_draws_constant (c : R) : 0 <= c < 1 -> unit_draws (constant c).
Proof. intros Hc n. exact Hc. Qed.

Section AlignedExplosion.

Variables ref p v : Vec3.
Variable s : Source.
Hypothesis draws_ok : unit_draws s.
Hypothesis aligned_v : Spec.aligned ref p v.

Lemma explode_velocity_norm :
  norm v <= norm (fst (explode_velocity ref p v s)).
Proof.
  destruct aligned_v as (Hx & Hy & Hz).
  pose proof (explode_dist_pos (vx p - vx ref) (vy p - vy ref)
                (vz p - vz ref)) as Hd.
  rewrite explode_velocity_run. cbv zeta.
  set (dist := explode_dist _ _ _) in *.
  unfold norm. cbn [fst vx vy vz].
  apply sqrt_le_1_alt.
  pose proof (push_factor_nonneg dist _ Hd (proj1 (draws_ok (cursor s)))) as H1.
  pose proof (push_factor_nonneg dist _ Hd (proj1 (draws_ok (S (cursor s))))) as H2.
  pose proof (push_factor_nonneg dist _ Hd
                (proj1 (draws_ok (S (S (cursor s)))))) as H3.
  pose proof (component_grows _ _ _ H1 Hx) as Gx.
  pose proof (component_grows _ _ _ H2 Hy) as Gy.
  pose proof (component_grows _ _ _ H3 Hz) as Gz.
  unfold Rdiv.
  repeat rewrite Rmult_assoc in *.
  lra.
Qed.

Lemma explode_velocity_aligned :
  Spec.aligned ref
    (vec3 (vx p + vx (fst (explode_velocity ref p v s)))
          (vy p + vy (fst (explode_velocity ref p v s)))
          (vz p + vz (fst (explode_velocity ref p v s))))
    (fst (explode_velocity ref p v s)).
Proof.
  destruct aligned_v as (Hx & Hy & Hz).
  pose proof (explode_dist_pos (vx p - vx ref) (vy p - vy ref)
                (vz p - vz ref)) as Hd.
  rewrite explode_velocity_run. cbv zeta.
  set (dist := explode_dist _ _ _) in *.
  unfold Spec.aligned. cbn [fst vx vy vz].
  pose proof (push_factor_nonneg dist _ Hd (proj1 (draws_ok (cursor s)))) as H1.
  pose proof (push_factor_nonneg dist _ Hd (proj1 (draws_ok (S (cursor s))))) as H2.
  pose proof (push_factor_nonneg dist _ Hd
                (proj1 (draws_ok (S (S (cursor s)))))) as H3.
  pose proof (component_stays_aligned _ _ _ H1 Hx) as Gx.
  pose proof (component_stays_aligned _ _ _ H2 Hy) as Gy.
  pose proof (component_stays_aligned _ _ _ H3 Hz) as Gz.
  unfold Rdiv.
  repeat rewrite Rmult_assoc in *.
  repeat split; lra.
Qed.

End AlignedExplosion.

(** C2, as amended.  In the exploding branch, when every component of the
    velocity has the sign of the same component of the particle's offset
    from the reference point (or is zero, as for a particle at rest), the
    Euclidean magnitude of the velocity after the update is at least its
    magnitude before; the condition holds again after the update for the
    same reference point. *)
Theorem exploding_velocity_grows_when_aligned
    (h : HandState) (vp : Viewport) (elapsedTime : R) (i : nat)
    (p t v : Vec3) (s : Source) :
  isExploding h = true ->
  unit_draws s ->
  Spec.aligned (reference h vp) p v ->
  norm v <= norm (snd (fst (step_particle h vp elapsedTime i p t v s))) /\
  Spec.aligned (reference h vp)
    (fst (fst (step_particle h vp elapsedTime i p t v s)))
    (snd (fst (step_particle h vp elapsedTime i p t v s))) /\
  unit_draws (snd (step_particle h vp elapsedTime i p t v s)).
Proof.
  intros Hexp Hs Hal.
  rewrite (step_particle_exploding h vp elapsedTime i p t v s Hexp).
  cbn [fst snd]. split; [| split].
  - apply explode_velocity_norm; assumption.
  - apply explode_velocity_aligned; assumption.
  - apply unit_draws_advance; assumption.
Qed.

Lemma exploding_velocity_grows_when_aligned_witness :
  norm (vec3 0 0 0)
    <= norm (snd (fst (step_particle (mkHandState true true (vec3 0 0 0) 0.05)
                         (mkViewport 20 11.5) 0 0 (vec3 0.9 0 0) (vec3 0 0 0)
                         (vec3 0 0 0) (constant 0.5)))) /\
  Spec.aligned (reference (mkHandState true true (vec3 0 0 0) 0.05)
                  (mkViewport 20 11.5))
    (fst (fst (step_particle (mkHandState true true (vec3 0 0 0) 0.05)
                 (mkViewport 20 11.5) 0 0 (vec3 0.9 0 0) (vec3 0 0 0)
                 (vec3 0 0 0) (constant 0.5))))
    (snd (fst (step_particle (mkHandState true true (vec3 0 0 0) 0.05)
                 (mkViewport 20 11.5) 0 0 (vec3 0.9 0 0) (vec3 0 0 0)
                 (vec3 0 0 0) (constant 0.5)))) /\
  unit_draws (snd (step_particle (mkHandState true true (vec3 0 0 0) 0.05)
                     (mkViewport 20 11.5) 0 0 (vec3 0.9 0 0) (vec3 0 0 0)
                     (vec3 0 0 0) (constant 0.5))).
Proof.
  apply (exploding_velocity_grows_when_aligned
           (mkHandState true true (vec3 0 0 0) 0.05) (mkViewport 20 11.5) 0 0
           (vec3 0.9 0 0) (vec3 0 0 0) (vec3 0 0 0) (constant 0.5)).
  - reflexivity.
  - intros n. simpl. lra.
  - unfold Spec.aligned. simpl. lra.
Defined.

(** Over consecutive exploding frames with the hand where it was, the
    magnitude of the velocity of an aligned particle never falls below its
    starting value. *)
Lemma exploding_run_velocity
    (h : HandState) (vp : Viewport) (elapsedTime : R) (i : nat) (t : Vec3) :
  isExploding h = true ->
  forall (n : nat) (p v : Vec3) (s : Source),
    unit_draws s ->
    Spec.aligned (reference h vp) p v ->
    norm v <= norm (snd (fst (Spec.run_frames h vp elapsedTime i n p t v s))).
Proof.
  intros Hexp. induction n as [| n IH]; intros p v s Hs Hal.
  - simpl. lra.
  - cbn [Spec.run_frames]. unfold bind.
    rewrite (step_particle_exploding h vp elapsedTime i p t v s Hexp).
    cbv zeta. cbn [fst snd].
    apply Rle_trans with (norm (fst (explode_velocity (reference h vp) p v s))).
    + apply explode_velocity_norm; assumption.
    + apply IH.
      * apply unit_draws_advance; assumption.
      * apply explode_velocity_aligned; assumption.
Qed.

Lemma explode_dist_on_axis (dx dy dz : R) :
  dy = 0 -> dz = 0 -> explode_dist dx dy dz = Rabs dx + 0.1.
Proof.
  intros -> ->. unfold explode_dist.
  replace (dx * dx + 0 * 0 + 0 * 0) with (Rsqr dx) by (unfold Rsqr; ring).
  rewrite sqrt_Rsqr_abs. reflexivity.
Qed.

Lemma norm_on_axis (a b c : R) :
  b = 0 -> c = 0 -> norm (vec3 a b c) = Rabs a.
Proof.
  intros -> ->. unfold norm. cbn [vx vy vz].
  replace (a * a + 0 * 0 + 0 * 0) with (Rsqr a) by (unfold Rsqr; ring).
  apply sqrt_Rsqr_abs.
Qed.

Lemma explode_dist_value (dx dy dz a : R) :
  dy = 0 -> dz = 0 -> Rabs dx + 0.1 = a -> explode_dist dx dy dz = a.
Proof.
  intros Hy Hz <-. apply explode_dist_on_axis; assumption.
Qed.

(** First frame: pinch with the hand at the centre, particle at rest. *)
Lemma shrink_first_frame :
  step_particle (mkHandState true true (vec3 0 0 0) 0.05) (mkViewport 20 11.5)
    0 0 (vec3 0.9 0 0) (vec3 0 0 0) (vec3 0 0 0) (constant 0.5)
  = ((vec3 1.125 0 0, vec3 0.225 0 0), mkSource (fun _ => 0.5) 3).
Proof.
  rewrite step_particle_exploding by reflexivity.
  rewrite explode_velocity_run.
  unfold reference, handX, handY, explosionForce, constant.
  cbn [fst snd vx vy vz draws cursor isDetected handPosition width height].
  rewrite (explode_dist_value _ _ _ 1);
    [| lra | lra | rewrite Rabs_right by lra; lra].
  repeat f_equal; lra.
Qed.

(** Second frame: the hand is now on the far side of the particle. *)
Lemma shrink_second_frame :
  step_particle (mkHandState true true (vec3 (-0.0405) 0 0) 0.05)
    (mkViewport 20 11.5) 0 0 (vec3 1.125 0 0) (vec3 0 0 0) (vec3 0.225 0 0)
    (mkSource (fun _ => 0.5) 3)
  = ((vec3 1.125 0 0, vec3 0 0 0), mkSource (fun _ => 0.5) 6).
Proof.
  rewrite step_particle_exploding by reflexivity.
  rewrite explode_velocity_run.
  unfold reference, handX, handY, explosionForce.
  cbn [fst snd vx vy vz draws cursor isDetected handPosition width height].
  rewrite (explode_dist_value _ _ _ 1);
    [| lra | lra | rewrite Rabs_left by lra; lra].
  repeat f_equal; lra.
Qed.

(** C2, as stated, fails.  A particle at rest at [(0.9, 0, 0)] is pushed
    away from the origin in a first exploding frame; in the next exploding
    frame the hand has moved to the other side of the particle and the push
    goes against the velocity: the magnitude falls from 0.225 to 0. *)
Lemma exploding_velocity_can_shrink :
  isExploding (mkHandState true true (vec3 0 0 0) 0.05) = true /\
  isExploding (mkHandState true true (vec3 (-0.0405) 0 0) 0.05) = true /\
  unit_draws (constant 0.5) /\
  norm
    (snd (fst
       (step_particle (mkHandState true true (vec3 (-0.0405) 0 0) 0.05)
          (mkViewport 20 11.5) 0 0
          (fst (fst (step_particle (mkHandState true true (vec3 0 0 0) 0.05)
                       (mkViewport 20 11.5) 0 0 (vec3 0.9 0 0) (vec3 0 0 0)
                       (vec3 0 0 0) (constant 0.5))))
          (vec3 0 0 0)
          (snd (fst (step_particle (mkHandState true true (vec3 0 0 0) 0.05)
                       (mkViewport 20 11.5) 0 0 (vec3 0.9 0 0) (vec3 0 0 0)
                       (vec3 0 0 0) (constant 0.5))))
          (snd (step_particle (mkHandState true true (vec3 0 0 0) 0.05)
                  (mkViewport 20 11.5) 0 0 (vec3 0.9 0 0) (vec3 0 0 0)
                  (vec3 0 0 0) (constant 0.5))))))
  < norm
      (snd (fst (step_particle (mkHandState true true (vec3 0 0 0) 0.05)
                   (mkViewport 20 11.5) 0 0 (vec3 0.9 0 0) (vec3 0 0 0)
                   (vec3 0 0 0) (constant 0.5)))).
Proof.
  split; [reflexivity |]. split; [reflexivity |].
  split; [apply unit_draws_constant; lra |].
  rewrite shrink_first_frame. cbn [fst snd].
  rewrite shrink_second_frame. cbn [fst snd].
  rewrite !norm_on_axis by reflexivity.
  rewrite Rabs_R0, (Rabs_right 0.225) by lra. lra.
Qed.

(** ** The random source *)

Lemma keeps_draws_ret {A} (a : A) : keeps_draws (ret a).
Proof. intros s. reflexivity. Qed.

Lemma keeps_draws_random : keeps_draws random.
Proof. intros s. reflexivity. Qed.

Lemma keeps_draws_bind {A B} (m : M A) (k : A -> M B) :
  keeps_draws m -> (forall a, keeps_draws (k a)) -> keeps_draws (bind m k).
Proof.
  intros Hm Hk s. unfold bind.
  specialize (Hm s). destruct (m s) as [a s1]. simpl in Hm.
  rewrite (Hk a s1). exact Hm.
Qed.

Create HintDb draws.

#[local] Hint Resolve keeps_draws_ret keeps_draws_random : draws.

Ltac keeps_draws_tac :=
  repeat (apply keeps_draws_bind; [| intro]); auto with draws.

Lemma keeps_draws_for_each {A} (body : nat -> M A) :
  (forall i, keeps_draws (body i)) ->
  forall n i, keeps_draws (for_each body i n).
Proof.
  intros Hbody. induction n as [| n IH]; intros i; cbn [for_each].
  - apply keeps_draws_ret.
  - apply keeps_draws_bind; [apply Hbody |].
    intros a. apply keeps_draws_bind; [apply IH |].
    intros l. apply keeps_draws_ret.
Qed.

Lemma for_each_length {A} (body : nat -> M A) :
  forall n i s, List.length (fst (for_each body i n s)) = n.
Proof.
  induction n as [| n IH]; intros i s; cbn [for_each]; [reflexivity |].
  unfold bind. destruct (body i s) as [a s1].
  specialize (IH (S i) s1).
  destruct (for_each body (S i) n s1) as [l s2].
  simpl in *. congruence.
Qed.

(** Slot [k] of a loop holds what the body returns for index [i + k], run on
    the source left by the [k] iterations before it. *)
Lemma for_each_nth {A} (body : nat -> M A) :
  forall n i k s,
    (k < n)%nat ->
    nth_error (fst (for_each body i n s)) k
      = Some (fst (body (i + k)%nat (snd (for_each body i k s)))).
Proof.
  induction n as [| n IH]; intros i k s Hk; [lia |].
  destruct k as [| k].
  - rewrite Nat.add_0_r. cbn [for_each]. unfold bind, ret. cbn [snd].
    destruct (body i s) as [a s1].
    destruct (for_each body (S i) n s1) as [l s2]. reflexivity.
  - cbn [for_each]. unfold bind, ret.
    destruct (body i s) as [a s1].
    assert (Hk' : (k < n)%nat) by lia.
    specialize (IH (S i) k s1 Hk').
    destruct (for_each body (S i) n s1) as [l s2].
    destruct (for_each body (S i) k s1) as [l' s3].
    cbn [fst snd nth_error] in *.
    replace (i + S k)%nat with (S i + k)%nat by lia.
    exact IH.
Qed.

(** ** The target generator *)

Lemma keeps_draws_gen_target
    (shape : ParticleShape) (diffusion : R) (customPoints : list Vec3)
    (count : Z) (i : nat) :
  keeps_draws (gen_target shape diffusion customPoints count i).
Proof.
  unfold gen_target. destruct (exiled count i).
  - unfold deep_space. keeps_draws_tac.
  - destruct shape; cbn [shape_target].
    + unfold nebula_target. keeps_draws_tac.
    + unfold sphere_target. keeps_draws_tac.
    + unfold cube_target. cbv zeta. keeps_draws_tac.
    + unfold ring_target. cbv zeta. keeps_draws_tac.
    + unfold custom_target. destruct customPoints; cbv zeta; keeps_draws_tac.
Qed.

(** An exiled slot gets the deep-space target whatever the shape is. *)
Lemma exiled_target_any_shape
    (shape : ParticleShape) (diffusion : R) (customPoints : list Vec3)
    (count : Z) (i : nat) (s : Source) :
  exiled count i = true ->
  gen_target shape diffusion customPoints count i s = deep_space s.
Proof. intros Hex. unfold gen_target. rewrite Hex. reflexivity. Qed.

(** The slots of [j .. j+n-1] above [c]. *)
Lemma count_above (c : Z) :
  forall n j,
    List.length (filter (exiled c) (seq j n))
      = Z.to_nat (Z.min (Z.of_nat n) (Z.of_nat (j + n) - 1 - c)).
Proof.
  induction n as [| n IH]; intros j.
  - simpl. lia.
  - cbn [seq filter]. unfold exiled at 1.
    destruct (Z.ltb_spec c (Z.of_nat j)) as [Hlt | Hge];
      cbn [List.length]; rewrite IH; lia.
Qed.

Lemma target_count_nonneg (N : nat) (density : R) :
  0 <= density -> (0 <= target_count N density)%Z.
Proof.
  intros Hd. unfold target_count. apply Zfloor_lub. simpl.
  apply Rmult_le_pos; [apply pos_INR | assumption].
Qed.

Lemma target_count_below (N : nat) (density : R) :
  (0 < N)%nat -> density < 1 -> (target_count N density < Z.of_nat N)%Z.
Proof.
  intros HN Hd. unfold target_count.
  pose proof (Zfloor_bound (INR N * density)) as [Hlow _].
  apply lt_IZR. rewrite <- INR_IZR_INZ.
  assert (0 < INR N) by (apply lt_0_INR; assumption).
  nra.
Qed.

(** The number of exiled slots, for a density that is not negative. *)
Lemma exiled_count (N : nat) (density : R) :
  0 <= density ->
  List.length (exiled_indices N density)
    = Z.to_nat (Z.of_nat N - 1 - target_count N density).
Proof.
  intros Hd. pose proof (target_count_nonneg N density Hd).
  unfold exiled_indices. rewrite count_above. simpl. lia.
Qed.

(** Below full density the generator exiles one slot fewer than
    [N - floor (N * density)]: slot [floor (N * density)] keeps a shape
    target. *)
Lemma exiled_count_one_short (N : nat) (density : R) :
  (0 < N)%nat -> 0 <= density < 1 ->
  (Z.of_nat (List.length (exiled_indices N density))
     = Z.of_nat N - target_count N density - 1)%Z /\
  exiled (target_count N density) (Z.to_nat (target_count N density)) = false.
Proof.
  intros HN [Hd0 Hd1].
  pose proof (target_count_nonneg N density Hd0).
  pose proof (target_count_below N density HN Hd1).
  split.
  - rewrite exiled_count by assumption. lia.
  - unfold exiled. apply Z.ltb_ge. lia.
Qed.

Lemma target_count_default : target_count PARTICLE_COUNT 0.8 = 12000%Z.
Proof.
  unfold target_count. rewrite INR_IZR_INZ.
  change (Z.of_nat PARTICLE_COUNT) with 15000%Z.
  apply Zfloor_eq. lra.
Qed.

(** C1 at the default configuration (15000 particles, density 0.8): the
    specification gives [15000 - floor (15000 * 0.8) = 3000] exiled slots; the
    generator exiles the 2999 slots above 12000, and slot 12000 takes the
    shape branch. *)
Theorem exiled_count_at_default_density :
  List.length (exiled_indices PARTICLE_COUNT 0.8) = 2999%nat /\
  (Z.of_nat PARTICLE_COUNT - target_count PARTICLE_COUNT 0.8 = 3000)%Z /\
  exiled (target_count PARTICLE_COUNT 0.8) 12000 = false /\
  exiled (target_count PARTICLE_COUNT 0.8) 12001 = true.
Proof.
  split.
  { rewrite exiled_count by lra. rewrite target_count_default.
    vm_compute. reflexivity. }
  rewrite target_count_default. repeat split.
Qed.

(** ** Sphere targets *)

Lemma sphere_point_norm (radius phi theta : R) :
  0 <= radius ->
  norm (vec3 (radius * sin phi * cos theta)
             (radius * sin phi * sin theta)
             (radius * cos phi)) = radius.
Proof.
  intros Hr. unfold norm. cbn [vx vy vz].
  pose proof (sin2_cos2 phi) as Hphi.
  pose proof (sin2_cos2 theta) as Htheta.
  unfold Rsqr in Hphi, Htheta.
  replace (radius * sin phi * cos theta * (radius * sin phi * cos theta) +
           radius * sin phi * sin theta * (radius * sin phi * sin theta) +
           radius * cos phi * (radius * cos phi))
    with (radius * radius *
            (sin phi * sin phi * (sin theta * sin theta + cos theta * cos theta)
             + cos phi * cos phi)) by ring.
  rewrite Htheta, Rmult_1_r, Hphi, Rmult_1_r.
  apply sqrt_square. assumption.
Qed.

Lemma sphere_target_norm (diffusion : R) (s : Source) :
  0 <= diffusion ->
  norm (fst (sphere_target diffusion s)) = 2.5 * diffusion.
Proof.
  intros Hd. unfold sphere_target, bind, ret, random. cbn [fst].
  apply sphere_point_norm. lra.
Qed.

(** C5.  For every diffusion value of the configuration (any diffusion that
    is not negative), every target generated by the SPHERE case, that is
    the target of every slot for which the loop takes the shape branch under
    the sphere selector, lies at Euclidean distance exactly
    [2.5 * diffusion] from the origin. *)
Theorem sphere_targets_on_sphere
    (N : nat) (config : ParticleConfig) (customPoints : list Vec3)
    (s : Source) (i : nat) :
  0 <= diffusion config ->
  (i < N)%nat ->
  exiled (target_count N (density config)) i = false ->
  exists t,
    nth_error (fst (update_targets N SPHERE config customPoints s)) i = Some t /\
    norm t = 2.5 * diffusion config.
Proof.
  intros Hd Hi Hin. unfold update_targets.
  rewrite (for_each_nth _ N 0 i s Hi). eexists. split; [reflexivity |].
  unfold gen_target. cbn [Nat.add]. rewrite Hin. cbn [shape_target].
  apply sphere_target_norm. assumption.
Qed.

Lemma sphere_targets_on_sphere_witness :
  exists t,
    nth_error
      (fst (update_targets PARTICLE_COUNT SPHERE (mkConfig 0.8 1.0 "#00ffff" 5.0)
              [] (constant 0.5))) 7 = Some t /\
    norm t = 2.5 * 1.0.
Proof.
  apply (sphere_targets_on_sphere PARTICLE_COUNT
           (mkConfig 0.8 1.0 "#00ffff" 5.0) [] (constant 0.5) 7).
  - simpl. lra.
  - apply Nat.ltb_lt. vm_compute. reflexivity.
  - simpl. rewrite target_count_default. reflexivity.
Defined.

(** * Further properties of the code *)

(** ** The slots of the target buffer *)

Lemma for_each_nth_draws {A} (body : nat -> M A) :
  (forall i, keeps_draws (body i)) ->
  forall n i k s,
    (k < n)%nat ->
    exists s',
      draws s' = draws s /\
      nth_error (fst (for_each body i n s)) k = Some (fst (body (i + k)%nat s')).
Proof.
  intros Hbody n i k s Hk.
  exists (snd (for_each body i k s)). split.
  - apply keeps_draws_for_each. exact Hbody.
  - apply for_each_nth. exact Hk.
Qed.

Lemma unit_draws_same (s s' : Source) :
  draws s' = draws s -> unit_draws s -> unit_draws s'.
Proof. intros Heq Hs n. rewrite Heq. apply Hs. Qed.

Section Slots.

Variable N : nat.
Variable shape : ParticleShape.
Variable config : ParticleConfig.
Variable customPoints : list Vec3.
Variable s : Source.
Variable i : nat.
Hypothesis draws_ok : unit_draws s.
Hypothesis in_range : (i < N)%nat.

(** A slot that is not exiled holds what the shape branch returns, run on a
    source with the draws of [s]. *)
Lemma shape_slot :
  exiled (target_count N (density config)) i = false ->
  exists s',
    unit_draws s' /\
    nth_error (fst (update_targets N shape config customPoints s)) i
      = Some (fst (shape_target shape (diffusion config) customPoints i s')).
Proof.
  intros Hin. unfold update_targets.
  destruct (for_each_nth_draws _
              (keeps_draws_gen_target shape (diffusion config) customPoints
                 (target_count N (density config))) N 0%nat i s in_range)
    as (s' & Hdraws & Hnth).
  exists s'. split; [apply (unit_draws_same s); assumption |].
  rewrite Hnth. cbn [Nat.add]. unfold gen_target. rewrite Hin. reflexivity.
Qed.

(** An exiled slot holds a deep-space point. *)
Lemma exiled_slot :
  exiled (target_count N (density config)) i = true ->
  exists s',
    unit_draws s' /\
    nth_error (fst (update_targets N shape config customPoints s)) i
      = Some (fst (deep_space s')).
Proof.
  intros Hex. unfold update_targets.
  destruct (for_each_nth_draws _
              (keeps_draws_gen_target shape (diffusion config) customPoints
                 (target_count N (density config))) N 0%nat i s in_range)
    as (s' & Hdraws & Hnth).
  exists s'. split; [apply (unit_draws_same s); assumption |].
  rewrite Hnth. cbn [Nat.add]. rewrite exiled_target_any_shape by assumption.
  reflexivity.
Qed.

End Slots.

Lemma default_slot_not_exiled (i : nat) :
  (Z.of_nat i <= 12000)%Z ->
  exiled (target_count PARTICLE_COUNT 0.8) i = false.
Proof.
  intros Hi. rewrite target_count_default. unfold exiled.
  apply Z.ltb_ge. lia.
Qed.

Lemma default_slot_exiled (i : nat) :
  (12000 < Z.of_nat i)%Z ->
  exiled (target_count PARTICLE_COUNT 0.8) i = true.
Proof.
  intros Hi. rewrite target_count_default. unfold exiled.
  apply Z.ltb_lt. lia.
Qed.

Lemma slot_below_count (i : nat) :
  (i <? PARTICLE_COUNT)%nat = true -> (i < PARTICLE_COUNT)%nat.
Proof. apply Nat.ltb_lt. Qed.

Ltac default_slot :=
  first
    [ apply unit_draws_constant; lra
    | apply slot_below_count; vm_compute; reflexivity
    | apply default_slot_not_exiled; vm_compute; discriminate
    | apply default_slot_exiled; vm_compute; reflexivity
    | simpl; lra
    | discriminate
    | reflexivity ].

(** ** The shapes *)

(** X1.  Cube: a slot that is not exiled gets a point of the cube of side
    [4 * diffusion] centred at the origin. *)
Theorem cube_targets_in_box
    (N : nat) (config : ParticleConfig) (customPoints : list Vec3)
    (s : Source) (i : nat) :
  unit_draws s ->
  (i < N)%nat ->
  0 <= diffusion config ->
  exiled (target_count N (density config)) i = false ->
  exists t,
    nth_error (fst (update_targets N CUBE config customPoints s)) i = Some t /\
    - (2 * diffusion config) <= vx t <= 2 * diffusion config /\
    - (2 * diffusion config) <= vy t <= 2 * diffusion config /\
    - (2 * diffusion config) <= vz t <= 2 * diffusion config.
Proof.
  intros Hs Hi Hd Hin.
  destruct (shape_slot N CUBE config customPoints s i Hs Hi Hin)
    as (s' & Hs' & Hnth).
  eexists. split; [exact Hnth |].
  cbn [shape_target]. unfold cube_target, bind, ret, random.
  cbn [fst vx vy vz draws cursor].
  pose proof (Hs' (cursor s')) as H1.
  pose proof (Hs' (S (cursor s'))) as H2.
  pose proof (Hs' (S (S (cursor s')))) as H3.
  repeat split; nra.
Qed.

Lemma cube_targets_in_box_witness :
  exists t,
    nth_error
      (fst (update_targets PARTICLE_COUNT CUBE (mkConfig 0.8 1.0 "#00ffff" 5.0)
              [] (constant 0.5))) 0 = Some t /\
    - (2 * 1.0) <= vx t <= 2 * 1.0 /\
    - (2 * 1.0) <= vy t <= 2 * 1.0 /\
    - (2 * 1.0) <= vz t <= 2 * 1.0.
Proof.
  apply (cube_targets_in_box PARTICLE_COUNT (mkConfig 0.8 1.0 "#00ffff" 5.0)
           [] (constant 0.5) 0); default_slot.
Defined.

Lemma circle_point_radius (angle rad : R) :
  0 <= rad ->
  sqrt (cos angle * rad * (cos angle * rad) + sin angle * rad * (sin angle * rad))
    = rad.
Proof.
  intros Hr. pose proof (sin2_cos2 angle) as Ha. unfold Rsqr in Ha.
  replace (cos angle * rad * (cos angle * rad) + sin angle * rad * (sin angle * rad))
    with (rad * rad * (sin angle * sin angle + cos angle * cos angle)) by ring.
  rewrite Ha, Rmult_1_r. apply sqrt_square. assumption.
Qed.

(** X2.  Ring: a slot that is not exiled gets a point whose distance from the
    z axis lies between [2 * diffusion] and [3 * diffusion], at most 0.25
    away from the XY plane. *)
Theorem ring_targets_in_annulus
    (N : nat) (config : ParticleConfig) (customPoints : list Vec3)
    (s : Source) (i : nat) :
  unit_draws s ->
  (i < N)%nat ->
  0 <= diffusion config ->
  exiled (target_count N (density config)) i = false ->
  exists t,
    nth_error (fst (update_targets N RING config customPoints s)) i = Some t /\
    2 * diffusion config <= sqrt (vx t * vx t + vy t * vy t)
      <= 3 * diffusion config /\
    -0.25 <= vz t <= 0.25.
Proof.
  intros Hs Hi Hd Hin.
  destruct (shape_slot N RING config customPoints s i Hs Hi Hin)
    as (s' & Hs' & Hnth).
  eexists. split; [exact Hnth |].
  cbn [shape_target]. unfold ring_target, bind, ret, random.
  cbn [fst vx vy vz draws cursor].
  pose proof (Hs' (S (cursor s'))) as H2.
  pose proof (Hs' (S (S (cursor s')))) as H3.
  rewrite circle_point_radius by nra.
  repeat split; nra.
Qed.

Lemma ring_targets_in_annulus_witness :
  exists t,
    nth_error
      (fst (update_targets PARTICLE_COUNT RING (mkConfig 0.8 1.0 "#00ffff" 5.0)
              [] (constant 0.5))) 0 = Some t /\
    2 * 1.0 <= sqrt (vx t * vx t + vy t * vy t) <= 3 * 1.0 /\
    -0.25 <= vz t <= 0.25.
Proof.
  apply (ring_targets_in_annulus PARTICLE_COUNT
           (mkConfig 0.8 1.0 "#00ffff" 5.0) [] (constant 0.5) 0); default_slot.
Defined.

(** X3.  Nebula: a slot that is not exiled gets a point of the ball of radius
    [3 * diffusion] around the origin. *)
Theorem nebula_targets_in_ball
    (N : nat) (config : ParticleConfig) (customPoints : list Vec3)
    (s : Source) (i : nat) :
  unit_draws s ->
  (i < N)%nat ->
  0 <= diffusion config ->
  exiled (target_count N (density config)) i = false ->
  exists t,
    nth_error (fst (update_targets N NEBULA config customPoints s)) i = Some t /\
    norm t <= 3 * diffusion config.
Proof.
  intros Hs Hi Hd Hin.
  destruct (shape_slot N NEBULA config customPoints s i Hs Hi Hin)
    as (s' & Hs' & Hnth).
  eexists. split; [exact Hnth |].
  cbn [shape_target]. unfold nebula_target, bind, ret, random.
  cbn [fst draws cursor].
  pose proof (Hs' (cursor s')) as H1.
  rewrite sphere_point_norm by nra. nra.
Qed.

Lemma nebula_targets_in_ball_witness :
  exists t,
    nth_error
      (fst (update_targets PARTICLE_COUNT NEBULA
              (mkConfig 0.8 1.0 "#00ffff" 5.0) [] (constant 0.5))) 0 = Some t /\
    norm t <= 3 * 1.0.
Proof.
  apply (nebula_targets_in_ball PARTICLE_COUNT
           (mkConfig 0.8 1.0 "#00ffff" 5.0) [] (constant 0.5) 0); default_slot.
Defined.

(** X4.  Deep space: whatever the shape, the diffusion and the drawn points, an
    exiled slot gets a point of the cube [-25, 25) on each axis. *)
Theorem exiled_targets_in_far_cube
    (N : nat) (shape : ParticleShape) (config : ParticleConfig)
    (customPoints : list Vec3) (s : Source) (i : nat) :
  unit_draws s ->
  (i < N)%nat ->
  exiled (target_count N (density config)) i = true ->
  exists t,
    nth_error (fst (update_targets N shape config customPoints s)) i = Some t /\
    -25 <= vx t < 25 /\ -25 <= vy t < 25 /\ -25 <= vz t < 25.
Proof.
  intros Hs Hi Hex.
  destruct (exiled_slot N shape config customPoints s i Hs Hi Hex)
    as (s' & Hs' & Hnth).
  eexists. split; [exact Hnth |].
  unfold deep_space, bind, ret, random. cbn [fst vx vy vz draws cursor].
  pose proof (Hs' (cursor s')) as H1.
  pose proof (Hs' (S (cursor s'))) as H2.
  pose proof (Hs' (S (S (cursor s')))) as H3.
  repeat split; lra.
Qed.

Lemma exiled_targets_in_far_cube_witness :
  exists t,
    nth_error
      (fst (update_targets PARTICLE_COUNT RING (mkConfig 0.8 1.0 "#00ffff" 5.0)
              [] (constant 0.5))) 14999 = Some t /\
    -25 <= vx t < 25 /\ -25 <= vy t < 25 /\ -25 <= vz t < 25.
Proof.
  apply (exiled_targets_in_far_cube PARTICLE_COUNT RING
           (mkConfig 0.8 1.0 "#00ffff" 5.0) [] (constant 0.5) 14999);
    default_slot.
Defined.

Lemma custom_target_run
    (diffusion : R) (p0 : Vec3) (ps : list Vec3) (i : nat) (s : Source) :
  fst (custom_target diffusion (p0 :: ps) i s) =
    (let pt := nth (i mod List.length (p0 :: ps)) (p0 :: ps) p0 in
     vec3 (vx pt * 5 * diffusion + (draws s (cursor s) - 0.5) * 0.2)
          (vy pt * 5 * diffusion + (draws s (S (cursor s)) - 0.5) * 0.2)
          (vz pt + (draws s (S (S (cursor s))) - 0.5) * 0.5)).
Proof. reflexivity. Qed.

(** X5.  Custom shape: slot [i], when not exiled, follows the drawn point of
    index [i mod length]: its x and y are that point's, times
    [5 * diffusion], within 0.1; its z is that point's z, not scaled, within
    0.25. *)
Theorem custom_targets_follow_drawing
    (N : nat) (config : ParticleConfig) (customPoints : list Vec3)
    (s : Source) (i : nat) :
  unit_draws s ->
  (i < N)%nat ->
  customPoints <> [] ->
  exiled (target_count N (density config)) i = false ->
  exists t pt,
    nth_error (fst (update_targets N CUSTOM config customPoints s)) i = Some t /\
    nth_error customPoints (i mod List.length customPoints) = Some pt /\
    -0.1 <= vx t - vx pt * 5 * diffusion config <= 0.1 /\
    -0.1 <= vy t - vy pt * 5 * diffusion config <= 0.1 /\
    -0.25 <= vz t - vz pt <= 0.25.
Proof.
  intros Hs Hi Hne Hin.
  destruct (shape_slot N CUSTOM config customPoints s i Hs Hi Hin)
    as (s' & Hs' & Hnth).
  destruct customPoints as [| p0 ps]; [contradiction |].
  assert (Hmod : (i mod List.length (p0 :: ps) < List.length (p0 :: ps))%nat)
    by (apply Nat.mod_upper_bound; discriminate).
  exists (fst (shape_target CUSTOM (diffusion config) (p0 :: ps) i s')),
         (nth (i mod List.length (p0 :: ps)) (p0 :: ps) p0).
  split; [exact Hnth |].
  split; [apply nth_error_nth'; exact Hmod |].
  cbn [shape_target]. rewrite custom_target_run. cbv zeta.
  cbn [vx vy vz].
  pose proof (Hs' (cursor s')) as H1.
  pose proof (Hs' (S (cursor s'))) as H2.
  pose proof (Hs' (S (S (cursor s')))) as H3.
  repeat split; lra.
Qed.

Lemma custom_targets_follow_drawing_witness :
  exists t pt,
    nth_error
      (fst (update_targets PARTICLE_COUNT CUSTOM
              (mkConfig 0.8 1.0 "#00ffff" 5.0)
              [vec3 (-1) 1 0; vec3 0 0 0; vec3 1 (-1) 0] (constant 0.5))) 7
      = Some t /\
    nth_error [vec3 (-1) 1 0; vec3 0 0 0; vec3 1 (-1) 0]
      (7 mod List.length [vec3 (-1) 1 0; vec3 0 0 0; vec3 1 (-1) 0]) = Some pt /\
    -0.1 <= vx t - vx pt * 5 * 1.0 <= 0.1 /\
    -0.1 <= vy t - vy pt * 5 * 1.0 <= 0.1 /\
    -0.25 <= vz t - vz pt <= 0.25.
Proof.
  apply (custom_targets_follow_drawing PARTICLE_COUNT
           (mkConfig 0.8 1.0 "#00ffff" 5.0)
           [vec3 (-1) 1 0; vec3 0 0 0; vec3 1 (-1) 0] (constant 0.5) 7);
    default_slot.
Defined.

(** X6.  Custom shape with nothing drawn: a slot that is not exiled gets a point
    of the flat square of side 5 in the plane z = 0, whatever the
    diffusion. *)
Theorem custom_fallback_is_flat
    (N : nat) (config : ParticleConfig) (s : Source) (i : nat) :
  unit_draws s ->
  (i < N)%nat ->
  exiled (target_count N (density config)) i = false ->
  exists t,
    nth_error (fst (update_targets N CUSTOM config [] s)) i = Some t /\
    -2.5 <= vx t < 2.5 /\ -2.5 <= vy t < 2.5 /\ vz t = 0.
Proof.
  intros Hs Hi Hin.
  destruct (shape_slot N CUSTOM config [] s i Hs Hi Hin) as (s' & Hs' & Hnth).
  eexists. split; [exact Hnth |].
  cbn [shape_target custom_target]. unfold bind, ret, random.
  cbn [fst vx vy vz draws cursor].
  pose proof (Hs' (cursor s')) as H1.
  pose proof (Hs' (S (cursor s'))) as H2.
  repeat split; lra.
Qed.

Lemma custom_fallback_is_flat_witness :
  exists t,
    nth_error
      (fst (update_targets PARTICLE_COUNT CUSTOM
              (mkConfig 0.8 3.0 "#00ffff" 5.0) [] (constant 0.5))) 0 = Some t /\
    -2.5 <= vx t < 2.5 /\ -2.5 <= vy t < 2.5 /\ vz t = 0.
Proof.
  apply (custom_fallback_is_flat PARTICLE_COUNT
           (mkConfig 0.8 3.0 "#00ffff" 5.0) (constant 0.5) 0); default_slot.
Defined.

(** ** The starting positions *)

Lemma keeps_draws_init_position : keeps_draws init_position.
Proof. unfold init_position. keeps_draws_tac. Qed.

(** X7.  Every slot starts at the same point in [positions] and in
    [initialPositions], inside the box [-10, 10) x [-10, 10) x [-10, 0):
    behind the plane z = 0. *)
Theorem init_positions_in_box (N : nat) (s : Source) (i : nat) :
  unit_draws s ->
  (i < N)%nat ->
  exists p,
    nth_error (fst (fst (init_positions N s))) i = Some p /\
    nth_error (snd (fst (init_positions N s))) i = Some p /\
    -10 <= vx p < 10 /\ -10 <= vy p < 10 /\ -10 <= vz p < 0.
Proof.
  intros Hs Hi.
  destruct (for_each_nth_draws (fun _ => init_position)
              (fun _ => keeps_draws_init_position) N 0%nat i s Hi)
    as (s' & Hdraws & Hnth).
  pose proof (unit_draws_same s s' Hdraws Hs) as Hs'.
  unfold init_positions, bind, ret.
  destruct (for_each (fun _ => init_position) 0 N s) as [l s1].
  cbn [fst snd] in *.
  eexists. split; [exact Hnth |]. split; [exact Hnth |].
  unfold init_position, bind, ret, random. cbn [fst vx vy vz draws cursor].
  pose proof (Hs' (cursor s')) as H1.
  pose proof (Hs' (S (cursor s'))) as H2.
  pose proof (Hs' (S (S (cursor s')))) as H3.
  repeat split; lra.
Qed.

Lemma init_positions_in_box_witness :
  exists p,
    nth_error (fst (fst (init_positions PARTICLE_COUNT (constant 0.5)))) 14999
      = Some p /\
    nth_error (snd (fst (init_positions PARTICLE_COUNT (constant 0.5)))) 14999
      = Some p /\
    -10 <= vx p < 10 /\ -10 <= vy p < 10 /\ -10 <= vz p < 0.
Proof.
  apply (init_positions_in_box PARTICLE_COUNT (constant 0.5) 14999);
    default_slot.
Defined.

(** ** Frames and the buffers *)

Lemma step_from_lengths (h : HandState) (vp : Viewport) (elapsedTime : R) :
  forall (ps ts vs : list Vec3) (i : nat) (s : Source),
    List.length ts = List.length ps ->
    List.length vs = List.length ps ->
    List.length (fst (fst (step_from h vp elapsedTime i ps ts vs s)))
      = List.length ps /\
    List.length (snd (fst (step_from h vp elapsedTime i ps ts vs s)))
      = List.length ps.
Proof.
  induction ps as [| p ps IH]; intros ts vs i s Ht Hv; [split; reflexivity |].
  destruct ts as [| t ts]; [discriminate |].
  destruct vs as [| v vs]; [discriminate |].
  injection Ht as Ht. injection Hv as Hv.
  cbn [step_from]. unfold bind, ret.
  destruct (step_particle h vp elapsedTime i p t v s) as [pv s1].
  destruct (IH ts vs (S i) s1 Ht Hv) as [Hp Hvel].
  destruct (step_from h vp elapsedTime (S i) ps ts vs s1) as [rest s2].
  cbn [fst snd List.length] in *. split; congruence.
Qed.

(** X8.  A frame keeps the three buffers in step: with [n] slots in each before,
    there are [n] positions and [n] velocities after, and the targets are
    the ones before, whether the frame explodes, aggregates or returns early
    because the points are not mounted. *)
Theorem frame_keeps_buffers_in_step
    (mounted : bool) (h : HandState) (vp : Viewport) (elapsedTime : R)
    (b : Buffers) (s : Source) :
  List.length (targets b) = List.length (positions b) ->
  List.length (velocities b) = List.length (positions b) ->
  let b' := fst (useFrame mounted h vp elapsedTime b s) in
  List.length (positions b') = List.length (positions b) /\
  List.length (velocities b') = List.length (positions b) /\
  targets b' = targets b.
Proof.
  intros Ht Hv. unfold useFrame. destruct mounted.
  - unfold bind, ret.
    destruct (step_from_lengths h vp elapsedTime (positions b) (targets b)
                (velocities b) 0 s Ht Hv) as [Hp Hvel].
    destruct (step_from h vp elapsedTime 0 (positions b) (targets b)
                (velocities b) s) as [out s1].
    cbn [fst snd positions velocities targets] in *. repeat split; assumption.
  - cbn. repeat split; auto.
Qed.

Lemma frame_keeps_buffers_in_step_witness :
  let b := mkBuffers [vec3 1 2 3; vec3 0 0 1] [vec3 0 0 0; vec3 1 1 1]
             [vec3 0 0 0; vec3 0 1 0] in
  let b' := fst (useFrame true (mkHandState true true (vec3 0 0 0) 0.05)
                   (mkViewport 20 11.5) 0 b (constant 0.5)) in
  List.length (positions b') = List.length (positions b) /\
  List.length (velocities b') = List.length (positions b) /\
  targets b' = targets b.
Proof.
  exact (frame_keeps_buffers_in_step true
           (mkHandState true true (vec3 0 0 0) 0.05) (mkViewport 20 11.5) 0
           (mkBuffers [vec3 1 2 3; vec3 0 0 1] [vec3 0 0 0; vec3 1 1 1]
              [vec3 0 0 0; vec3 0 1 0]) (constant 0.5) eq_refl eq_refl).
Defined.

(** ** Frames and the random source *)

Lemma step_from_calm_source
    (h : HandState) (vp : Viewport) (elapsedTime : R) :
  isExploding h = false ->
  forall (ps ts vs : list Vec3) (i : nat) (s s' : Source),
    step_from h vp elapsedTime i ps ts vs s
      = (fst (step_from h vp elapsedTime i ps ts vs s'), s).
Proof.
  intros Hcalm. induction ps as [| p ps IH]; intros ts vs i s s'; [reflexivity |].
  destruct ts as [| t ts]; [reflexivity |].
  destruct vs as [| v vs]; [reflexivity |].
  rewrite !(step_from_calm_cons h vp elapsedTime Hcalm).
  rewrite (IH ts vs (S i) s s').
  destruct (step_from h vp elapsedTime (S i) ps ts vs s') as [rest s1].
  reflexivity.
Qed.

(** X9.  An aggregation frame draws no random number: the source comes back as
    it was, and the buffers after the frame are the same for any two
    sources. *)
Theorem aggregation_frame_draws_nothing
    (mounted : bool) (h : HandState) (vp : Viewport) (elapsedTime : R)
    (b : Buffers) (s s' : Source) :
  isExploding h = false ->
  snd (useFrame mounted h vp elapsedTime b s) = s /\
  fst (useFrame mounted h vp elapsedTime b s)
    = fst (useFrame mounted h vp elapsedTime b s').
Proof.
  intros Hcalm. unfold useFrame. destruct mounted; [| split; reflexivity].
  unfold bind, ret.
  rewrite (step_from_calm_source h vp elapsedTime Hcalm (positions b)
             (targets b) (velocities b) 0 s s').
  destruct (step_from h vp elapsedTime 0 (positions b) (targets b)
              (velocities b) s') as [out s1].
  split; reflexivity.
Qed.

Lemma aggregation_frame_draws_nothing_witness :
  snd (useFrame true App.initialHandState (mkViewport 20 11.5) 0
         (mkBuffers [vec3 1 2 3] [vec3 0 0 0] [vec3 1 1 1]) (constant 0.5))
    = constant 0.5 /\
  fst (useFrame true App.initialHandState (mkViewport 20 11.5) 0
         (mkBuffers [vec3 1 2 3] [vec3 0 0 0] [vec3 1 1 1]) (constant 0.5))
    = fst (useFrame true App.initialHandState (mkViewport 20 11.5) 0
             (mkBuffers [vec3 1 2 3] [vec3 0 0 0] [vec3 1 1 1])
             (constant 0.25)).
Proof.
  exact (aggregation_frame_draws_nothing true App.initialHandState
           (mkViewport 20 11.5) 0
           (mkBuffers [vec3 1 2 3] [vec3 0 0 0] [vec3 1 1 1])
           (constant 0.5) (constant 0.25) eq_refl).
Defined.




(** ** How fast the velocity can grow *)

Lemma abs_below_explode_dist (a dx dy dz : R) :
  a * a <= dx * dx + dy * dy + dz * dz -> Rabs a < explode_dist dx dy dz.
Proof.
  intros Ha. unfold explode_dist.
  assert (Rabs a <= sqrt (dx * dx + dy * dy + dz * dz)).
  { rewrite <- (sqrt_Rsqr_abs a). apply sqrt_le_1_alt. unfold Rsqr. exact Ha. }
  lra.
Qed.

Lemma kick_below_force (a dist r : R) :
  Rabs a < dist -> 0 <= r < 1 ->
  -0.5 < a / dist * explosionForce * r < 0.5.
Proof.
  intros Ha Hr. unfold explosionForce.
  assert (Hd : 0 < dist) by (pose proof (Rabs_pos a); lra).
  assert (Hq : a / dist * dist = a) by (field; lra).
  assert (Hb : - dist < a < dist) by (split_Rabs; lra).
  assert (-1 < a / dist < 1) by (split; nra).
  split; nra.
Qed.

(** One exploding update changes each component of the velocity by less
    than [explosionForce]. *)
Lemma explode_velocity_kick (ref p v : Vec3) (s : Source) :
  unit_draws s ->
  -0.5 < vx (fst (explode_velocity ref p v s)) - vx v < 0.5 /\
  -0.5 < vy (fst (explode_velocity ref p v s)) - vy v < 0.5 /\
  -0.5 < vz (fst (explode_velocity ref p v s)) - vz v < 0.5.
Proof.
  intros Hs. rewrite explode_velocity_run. cbv zeta. cbn [fst vx vy vz].
  set (dx := vx p - vx ref). set (dy := vy p - vy ref).
  set (dz := vz p - vz ref).
  assert (Hx : Rabs dx < explode_dist dx dy dz)
    by (apply abs_below_explode_dist; nra).
  assert (Hy : Rabs dy < explode_dist dx dy dz)
    by (apply abs_below_explode_dist; nra).
  assert (Hz : Rabs dz < explode_dist dx dy dz)
    by (apply abs_below_explode_dist; nra).
  pose proof (kick_below_force _ _ _ Hx (Hs (cursor s))) as Kx.
  pose proof (kick_below_force _ _ _ Hy (Hs (S (cursor s)))) as Ky.
  pose proof (kick_below_force _ _ _ Hz (Hs (S (S (cursor s))))) as Kz.
  repeat split; lra.
Qed.

(** X11.  Over any sequence of frames, exploding or not, and wherever the hand
    is, no component of the velocity grows by more than [explosionForce]
    per frame: after [n] frames it is at most [0.5 * n] above its starting
    absolute value. *)
Theorem velocity_gains_at_most_half_per_frame
    (vp : Viewport) (i : nat) (t : Vec3) (frames : list (HandState * R))
    (p v : Vec3) (s : Source) :
  unit_draws s ->
  Trace.within (0.5 * INR (List.length frames)) v
    (snd (fst (Trace.run_schedule vp i t frames p v s))).
Proof.
  revert p v s. induction frames as [| [h elapsedTime] frames IH];
    intros p v s Hs.
  - unfold Trace.within. cbn. repeat split; lra.
  - cbn [Trace.run_schedule List.length]. rewrite S_INR. unfold bind.
    destruct (isExploding h) eqn:Hh.
    + rewrite (step_particle_exploding h vp elapsedTime i p t v s Hh).
      cbv zeta. cbn [fst snd].
      pose proof (explode_velocity_kick (reference h vp) p v s Hs)
        as (Kx & Ky & Kz).
      set (v1 := fst (explode_velocity (reference h vp) p v s)) in *.
      destruct (IH (vec3 (vx p + vx v1) (vy p + vy v1) (vz p + vz v1)) v1
                  (mkSource (draws s) (S (S (S (cursor s)))))
                  (unit_draws_advance s _ Hs)) as (Ix & Iy & Iz).
      unfold Trace.within. repeat split.
      * eapply Rle_trans; [exact Ix |]. split_Rabs; lra.
      * eapply Rle_trans; [exact Iy |]. split_Rabs; lra.
      * eapply Rle_trans; [exact Iz |]. split_Rabs; lra.
    + rewrite (step_particle_calm h vp elapsedTime Hh i p t v s).
      cbn [fst snd].
      destruct (IH (fst (Spec.aggregation_update elapsedTime i p t v))
                  (snd (Spec.aggregation_update elapsedTime i p t v)) s Hs)
        as (Ix & Iy & Iz).
      unfold Trace.within. cbn [Spec.aggregation_update snd vx vy vz] in *.
      repeat split.
      * eapply Rle_trans; [exact Ix |]. split_Rabs; lra.
      * eapply Rle_trans; [exact Iy |]. split_Rabs; lra.
      * eapply Rle_trans; [exact Iz |]. split_Rabs; lra.
Qed.

Lemma velocity_gains_at_most_half_per_frame_witness :
  Trace.within
    (0.5 * INR (List.length
                  [(mkHandState true true (vec3 0 0 0) 0.05, 0);
                   (mkHandState true true (vec3 (-0.0405) 0 0) 0.05, 0.016);
                   (App.initialHandState, 0.032)]))
    (vec3 0 0 0)
    (snd (fst (Trace.run_schedule (mkViewport 20 11.5) 0 (vec3 0 0 0)
                 [(mkHandState true true (vec3 0 0 0) 0.05, 0);
                  (mkHandState true true (vec3 (-0.0405) 0 0) 0.05, 0.016);
                  (App.initialHandState, 0.032)]
                 (vec3 0.9 0 0) (vec3 0 0 0) (constant 0.5)))).
Proof.
  apply (velocity_gains_at_most_half_per_frame (mkViewport 20 11.5) 0
           (vec3 0 0 0)
           [(mkHandState true true (vec3 0 0 0) 0.05, 0);
            (mkHandState true true (vec3 (-0.0405) 0 0) 0.05, 0.016);
            (App.initialHandState, 0.032)]
           (vec3 0.9 0 0) (vec3 0 0 0) (constant 0.5)).
  apply unit_draws_constant. lra.
Defined.

(** ** Settling on the targets *)

Lemma settled_step (m : nat) (a b v j : R) :
  Trace.settled m (a + (b - a) * 0.08 + j + v * 0.90) b (v * 0.90)
    = Trace.settled (S m) a b v + 0.92 ^ m * j.
Proof.
  unfold Trace.settled. cbn [pow].
  generalize (0.92 ^ m) (0.9 ^ m). intros A B. nra.
Qed.

Lemma jitter_scaled (a j : R) :
  0 <= a -> -1 <= j <= 1 -> - (0.002 * a) <= a * (j * 0.002) <= 0.002 * a.
Proof. intros Ha Hj. split; nra. Qed.

Lemma calm_run
    (vp : Viewport) (i : nat) (t : Vec3) :
  forall (frames : list (HandState * R)) (p v : Vec3) (s : Source),
    Trace.all_calm frames ->
    let n := List.length frames in
    let out := Trace.run_schedule vp i t frames p v s in
    snd out = s /\
    snd (fst out) = vec3 (0.9 ^ n * vx v) (0.9 ^ n * vy v) (0.9 ^ n * vz v) /\
    vz (fst (fst out)) = Trace.settled n (vz p) (vz t) (vz v) /\
    - (0.025 * (1 - 0.92 ^ n))
      <= vx (fst (fst out)) - Trace.settled n (vx p) (vx t) (vx v)
      <= 0.025 * (1 - 0.92 ^ n) /\
    - (0.025 * (1 - 0.92 ^ n))
      <= vy (fst (fst out)) - Trace.settled n (vy p) (vy t) (vy v)
      <= 0.025 * (1 - 0.92 ^ n).
Proof.
  induction frames as [| [h elapsedTime] frames IH]; intros p v s Hcalm.
  - cbn. unfold Trace.settled. cbn [pow]. destruct v as [a b c]. cbn.
    repeat split; try lra. f_equal; ring.
  - inversion Hcalm as [| f fs Hh Hrest]; subst. cbn [fst] in Hh.
    cbn zeta. cbn [Trace.run_schedule List.length]. unfold bind.
    rewrite (step_particle_calm h vp elapsedTime Hh i p t v s).
    cbn [fst snd].
    destruct (IH (fst (Spec.aggregation_update elapsedTime i p t v))
                 (snd (Spec.aggregation_update elapsedTime i p t v)) s Hrest)
      as (Hsrc & Hvel & Hz & Hx & Hy).
    cbn zeta in Hsrc, Hvel, Hz, Hx, Hy.
    set (out := Trace.run_schedule vp i t frames _ _ s) in *.
    cbn [Spec.aggregation_update fst snd vx vy vz] in Hvel, Hz, Hx, Hy.
    set (m := List.length frames) in *.
    assert (Ha : 0 <= 0.92 ^ m) by (apply pow_le; lra).
    split; [exact Hsrc |]. split; [| split; [| split]].
    + rewrite Hvel. cbn [pow]. generalize (0.9 ^ m). intros B.
      f_equal; nra.
    + rewrite Hz.
      replace (vz p + (vz t - vz p) * 0.08 + vz v * 0.90)
        with (vz p + (vz t - vz p) * 0.08 + 0 + vz v * 0.90) by ring.
      rewrite settled_step. lra.
    + rewrite settled_step in Hx.
      pose proof (jitter_scaled _ _ Ha (SIN_bound (elapsedTime + INR i))).
      cbn [pow]. lra.
    + rewrite settled_step in Hy.
      pose proof (jitter_scaled _ _ Ha (COS_bound (elapsedTime + INR i))).
      cbn [pow]. lra.
Qed.

(** X12.  Over [n] aggregation frames, whatever the clock readings, the velocity
    of a particle is its starting velocity times [0.9 ^ n], and its depth z,
    which gets no jitter, is in closed form: its offset from the target is
    [0.92 ^ n] times the starting offset plus
    [45 * vz * (0.92 ^ n - 0.9 ^ n)]; no random number is drawn. *)
Theorem aggregation_run_velocity_and_depth
    (vp : Viewport) (i : nat) (t : Vec3) (frames : list (HandState * R))
    (p v : Vec3) (s : Source) :
  Trace.all_calm frames ->
  let n := List.length frames in
  let out := Trace.run_schedule vp i t frames p v s in
  snd out = s /\
  snd (fst out) = vec3 (0.9 ^ n * vx v) (0.9 ^ n * vy v) (0.9 ^ n * vz v) /\
  vz (fst (fst out)) - vz t
    = 0.92 ^ n * (vz p - vz t) + 45 * vz v * (0.92 ^ n - 0.9 ^ n).
Proof.
  intros Hcalm n out.
  destruct (calm_run vp i t frames p v s Hcalm) as (Hsrc & Hvel & Hz & _).
  cbn zeta in Hsrc, Hvel, Hz. subst n out.
  split; [exact Hsrc |]. split; [exact Hvel |].
  rewrite Hz. unfold Trace.settled. ring.
Qed.

Lemma aggregation_run_velocity_and_depth_witness :
  let frames := [(App.initialHandState, 0); (App.initialHandState, 0.016)] in
  let n := List.length frames in
  let out := Trace.run_schedule (mkViewport 20 11.5) 3 (vec3 0 0 0) frames
               (vec3 1 2 3) (vec3 0.5 0 (-1)) (constant 0.5) in
  snd out = constant 0.5 /\
  snd (fst out) = vec3 (0.9 ^ n * 0.5) (0.9 ^ n * 0) (0.9 ^ n * -1) /\
  vz (fst (fst out)) - 0
    = 0.92 ^ n * (3 - 0) + 45 * -1 * (0.92 ^ n - 0.9 ^ n).
Proof.
  apply (aggregation_run_velocity_and_depth (mkViewport 20 11.5) 3
           (vec3 0 0 0)
           [(App.initialHandState, 0); (App.initialHandState, 0.016)]
           (vec3 1 2 3) (vec3 0.5 0 (-1)) (constant 0.5)).
  repeat constructor.
Defined.

(** X13.  Over [n] aggregation frames, whatever the clock readings, x and y stay
    within [0.025 * (1 - 0.92 ^ n)], hence within 0.025, of the course they
    would take without the breathing jitter. *)
Theorem aggregation_run_jitter_bound
    (vp : Viewport) (i : nat) (t : Vec3) (frames : list (HandState * R))
    (p v : Vec3) (s : Source) :
  Trace.all_calm frames ->
  let n := List.length frames in
  let out := Trace.run_schedule vp i t frames p v s in
  Rabs (vx (fst (fst out)) - Trace.settled n (vx p) (vx t) (vx v))
    <= 0.025 * (1 - 0.92 ^ n) /\
  Rabs (vy (fst (fst out)) - Trace.settled n (vy p) (vy t) (vy v))
    <= 0.025 * (1 - 0.92 ^ n) /\
  0.025 * (1 - 0.92 ^ n) <= 0.025.
Proof.
  intros Hcalm n out.
  destruct (calm_run vp i t frames p v s Hcalm) as (_ & _ & _ & Hx & Hy).
  cbn zeta in Hx, Hy. subst n out.
  assert (0 <= 0.92 ^ List.length frames) by (apply pow_le; lra).
  repeat split; try (apply Rabs_le; lra). lra.
Qed.

Lemma aggregation_run_jitter_bound_witness :
  let frames := [(App.initialHandState, 0); (App.initialHandState, 0.016)] in
  let n := List.length frames in
  let out := Trace.run_schedule (mkViewport 20 11.5) 3 (vec3 0 0 0) frames
               (vec3 1 2 3) (vec3 0.5 0 (-1)) (constant 0.5) in
  Rabs (vx (fst (fst out)) - Trace.settled n 1 0 0.5)
    <= 0.025 * (1 - 0.92 ^ n) /\
  Rabs (vy (fst (fst out)) - Trace.settled n 2 0 0)
    <= 0.025 * (1 - 0.92 ^ n) /\
  0.025 * (1 - 0.92 ^ n) <= 0.025.
Proof.
  apply (aggregation_run_jitter_bound (mkViewport 20 11.5) 3 (vec3 0 0 0)
           [(App.initialHandState, 0); (App.initialHandState, 0.016)]
           (vec3 1 2 3) (vec3 0.5 0 (-1)) (constant 0.5)).
  repeat constructor.
Defined.

(** ** More on the gesture interpreter *)

Lemma interpret_full_hand (hand : list Vec3) :
  (10 <= List.length hand)%nat ->
  exists thumbTip indexTip wrist middle,
    nth_error hand 4 = Some thumbTip /\
    nth_error hand 8 = Some indexTip /\
    nth_error hand 0 = Some wrist /\
    nth_error hand 9 = Some middle /\
    App.interpret hand =
      Some (mkHandState true
              (Rltb (sqrt ((vx thumbTip - vx indexTip) ^ 2 +
                           (vy thumbTip - vy indexTip) ^ 2 +
                           (vz thumbTip - vz indexTip) ^ 2)) 0.08)
              (vec3 (((vx wrist + vx middle) / 2 - 0.5) * -2)
                    (((vy wrist + vy middle) / 2 - 0.5) * -2) 0)
              (sqrt ((vx thumbTip - vx indexTip) ^ 2 +
                     (vy thumbTip - vy indexTip) ^ 2 +
                     (vz thumbTip - vz indexTip) ^ 2))).
Proof.
  intros Hlen.
  destruct (nth_error hand 4) as [thumbTip |] eqn:H4;
    [| apply nth_error_None in H4; lia].
  destruct (nth_error hand 8) as [indexTip |] eqn:H8;
    [| apply nth_error_None in H8; lia].
  destruct (nth_error hand 0) as [wrist |] eqn:H0;
    [| apply nth_error_None in H0; lia].
  destruct (nth_error hand 9) as [middle |] eqn:H9;
    [| apply nth_error_None in H9; lia].
  exists thumbTip, indexTip, wrist, middle. repeat split.
  unfold App.interpret. rewrite H4, H8, H0, H9. reflexivity.
Qed.

Lemma interpret_short_hand (hand : list Vec3) :
  (List.length hand < 10)%nat -> App.interpret hand = None.
Proof.
  intros Hlen. unfold App.interpret.
  assert (H9 : nth_error hand 9 = None) by (apply nth_error_None; lia).
  rewrite H9.
  destruct (nth_error hand 4), (nth_error hand 8), (nth_error hand 0);
    reflexivity.
Qed.

(** X15.  The hand position of a detected hand whose wrist and middle-finger base
    lie in the unit square is in [-1, 1] on x and y, with z = 0; both axes
    are flipped: the position is [1 - (wrist + middle)] on each. *)
Theorem hand_position_is_mirrored_midpoint
    (hand : list Vec3) (others : list (list Vec3)) (wrist middle : Vec3)
    (prev : HandState) :
  (10 <= List.length hand)%nat ->
  nth_error hand 0 = Some wrist ->
  nth_error hand 9 = Some middle ->
  0 <= vx wrist <= 1 -> 0 <= vy wrist <= 1 ->
  0 <= vx middle <= 1 -> 0 <= vy middle <= 1 ->
  exists h,
    App.setHandState (Some (App.mkResult (hand :: others))) prev = Some h /\
    vx (handPosition h) = 1 - (vx wrist + vx middle) /\
    vy (handPosition h) = 1 - (vy wrist + vy middle) /\
    vz (handPosition h) = 0 /\
    -1 <= vx (handPosition h) <= 1 /\
    -1 <= vy (handPosition h) <= 1.
Proof.
  intros Hlen H0 H9 Hwx Hwy Hmx Hmy.
  destruct (interpret_full_hand hand Hlen)
    as (thumbTip & indexTip & wrist' & middle' & _ & _ & H0' & H9' & Hrun).
  rewrite H0 in H0'. injection H0' as <-.
  rewrite H9 in H9'. injection H9' as <-.
  eexists. split; [cbn [App.setHandState App.landmarks]; exact Hrun |].
  cbn [handPosition vx vy vz]. repeat split; lra.
Qed.

Lemma hand_position_is_mirrored_midpoint_witness :
  exists h,
    App.setHandState
      (Some (App.mkResult [repeat (vec3 0.25 1 0) 21])) App.initialHandState
      = Some h /\
    vx (handPosition h) = 1 - (0.25 + 0.25) /\
    vy (handPosition h) = 1 - (1 + 1) /\
    vz (handPosition h) = 0 /\
    -1 <= vx (handPosition h) <= 1 /\
    -1 <= vy (handPosition h) <= 1.
Proof.
  apply (hand_position_is_mirrored_midpoint (repeat (vec3 0.25 1 0) 21) []
           (vec3 0.25 1 0) (vec3 0.25 1 0) App.initialHandState);
    first [ reflexivity | simpl; lia | simpl; lra ].
Defined.

(** X16.  [animate] fails (a [TypeError] in the source) exactly when the frame is
    processed and the first hand reported has fewer than 10 landmarks. *)
Theorem animate_fails_on_short_hand
    (currentTime : R) (result : option App.HandLandmarkerResult)
    (st : App.Vision) :
  App.animate currentTime result st = None <->
  currentTime <> App.lastVideoTime st /\
  exists hand others,
    result = Some (App.mkResult (hand :: others)) /\
    (List.length hand < 10)%nat.
Proof.
  unfold App.animate, Rneqb.
  destruct (Req_dec_T currentTime (App.lastVideoTime st)) as [Heq | Hne].
  - split; [discriminate | intros [Hne _]; contradiction].
  - destruct result as [[[| hand others]] |]; cbn [App.setHandState App.landmarks].
    + split; [discriminate | intros (_ & hand & others & Hr & _); discriminate].
    + destruct (Nat.lt_ge_cases (List.length hand) 10) as [Hshort | Hfull].
      * rewrite (interpret_short_hand hand Hshort).
        split; [| reflexivity].
        intros _. split; [exact Hne |]. exists hand, others. split; auto.
      * destruct (interpret_full_hand hand Hfull)
          as (a & b & c & d & _ & _ & _ & _ & Hrun).
        rewrite Hrun. split; [discriminate |].
        intros (_ & hand' & others' & Hr & Hlen).
        injection Hr as Hh Ho. subst hand' others'. lia.
    + split; [discriminate | intros (_ & hand & others & Hr & _); discriminate].
Qed.

(** X17.  Once a video frame has been processed, running [animate] again at the
    same video time leaves the state as it is, whatever the detector would
    report. *)
Theorem animate_skips_seen_frame
    (currentTime : R) (result result' : option App.HandLandmarkerResult)
    (st st1 : App.Vision) :
  App.animate currentTime result st = Some st1 ->
  App.animate currentTime result' st1 = Some st1.
Proof.
  unfold App.animate, Rneqb.
  destruct (Req_dec_T currentTime (App.lastVideoTime st)) as [Heq | Hne].
  - intros H. injection H as <-.
    destruct (Req_dec_T currentTime (App.lastVideoTime st)); [reflexivity |].
    contradiction.
  - destruct (App.setHandState result (App.handState st)) as [h |];
      [| discriminate].
    intros H. injection H as <-. cbn [App.lastVideoTime].
    destruct (Req_dec_T currentTime currentTime) as [_ | Hne'];
      [reflexivity | contradiction].
Qed.

Lemma animate_skips_seen_frame_witness :
  App.animate 1 (Some (App.mkResult [repeat (vec3 0 0 0) 21]))
    (App.mkVision 1 (App.no_hand App.initialHandState))
  = Some (App.mkVision 1 (App.no_hand App.initialHandState)).
Proof.
  apply (animate_skips_seen_frame 1 None
           (Some (App.mkResult [repeat (vec3 0 0 0) 21]))
           (App.mkVision 0 App.initialHandState)
           (App.mkVision 1 (App.no_hand App.initialHandState))).
  unfold App.animate. rewrite Rneqb_true by (simpl; lra). reflexivity.
Defined.

(** ** From the gesture to the simulation *)

(** X18.  When a processed frame shows no hand, the next simulation frames
    aggregate, also when the hand state before was a pinch: a stale pinch
    never explodes. *)
Theorem lost_hand_means_aggregation
    (currentTime : R) (result : option App.HandLandmarkerResult)
    (st : App.Vision) :
  currentTime <> App.lastVideoTime st ->
  App.hand_found result = false ->
  exists st',
    App.animate currentTime result st = Some st' /\
    isExploding (App.handState st') = false /\
    forall vp elapsedTime i p t v s,
      step_particle (App.handState st') vp elapsedTime i p t v s
        = (Spec.aggregation_update elapsedTime i p t v, s).
Proof.
  intros Htime Hnone.
  exists (App.mkVision currentTime (App.no_hand (App.handState st))).
  assert (Hcalm : isExploding (App.no_hand (App.handState st)) = false)
    by reflexivity.
  split; [| split; [exact Hcalm |]].
  - unfold App.animate. rewrite (Rneqb_true _ _ Htime).
    destruct result as [[[| hand others]] |]; simpl in *;
      try reflexivity; discriminate.
  - intros vp elapsedTime i p t v s. cbn [App.handState].
    apply step_particle_calm. exact Hcalm.
Qed.

Lemma lost_hand_means_aggregation_witness :
  exists st',
    App.animate 1 (Some (App.mkResult []))
      (App.mkVision 0 (mkHandState true true (vec3 0.25 0.5 0) 0.05))
      = Some st' /\
    isExploding (App.handState st') = false /\
    forall vp elapsedTime i p t v s,
      step_particle (App.handState st') vp elapsedTime i p t v s
        = (Spec.aggregation_update elapsedTime i p t v, s).
Proof.
  apply (lost_hand_means_aggregation 1 (Some (App.mkResult []))
           (App.mkVision 0 (mkHandState true true (vec3 0.25 0.5 0) 0.05)));
    [simpl; lra | reflexivity].
Defined.

(** X19.  When a processed frame shows a hand, the simulation explodes exactly
    when thumb tip and index tip are closer than 0.08, and the point the
    particles are pushed away from is
    [((wrist.x + middle.x - 1) * 2.5 * width,
      (wrist.y + middle.y - 1) * 2.5 * height, 0)]
    in scene units. *)
Theorem pinch_sets_explosion_centre
    (currentTime : R) (hand : list Vec3) (others : list (list Vec3))
    (thumbTip indexTip wrist middle : Vec3) (st : App.Vision) (vp : Viewport) :
  currentTime <> App.lastVideoTime st ->
  (10 <= List.length hand)%nat ->
  nth_error hand 4 = Some thumbTip ->
  nth_error hand 8 = Some indexTip ->
  nth_error hand 0 = Some wrist ->
  nth_error hand 9 = Some middle ->
  exists st',
    App.animate currentTime (Some (App.mkResult (hand :: others))) st
      = Some st' /\
    App.lastVideoTime st' = currentTime /\
    (isExploding (App.handState st') = true
       <-> distance thumbTip indexTip < 0.08) /\
    reference (App.handState st') vp
      = vec3 ((vx wrist + vx middle - 1) * 2.5 * width vp)
             ((vy wrist + vy middle - 1) * 2.5 * height vp) 0.
Proof.
  intros Htime Hlen H4 H8 H0 H9.
  destruct (interpret_full_hand hand Hlen)
    as (a & b & c & d & H4' & H8' & H0' & H9' & Hrun).
  rewrite H4 in H4'. injection H4' as <-.
  rewrite H8 in H8'. injection H8' as <-.
  rewrite H0 in H0'. injection H0' as <-.
  rewrite H9 in H9'. injection H9' as <-.
  eexists. split.
  { unfold App.animate. rewrite (Rneqb_true _ _ Htime).
    cbn [App.setHandState App.landmarks]. rewrite Hrun. reflexivity. }
  cbn [App.lastVideoTime App.handState].
  split; [reflexivity |]. split.
  - unfold isExploding. cbn [isDetected isPinched andb].
    apply Rltb_true_iff.
  - unfold reference, handX, handY.
    cbn [isDetected handPosition vx vy vz]. f_equal; lra.
Qed.

Lemma pinch_sets_explosion_centre_witness :
  exists st',
    App.animate 1 (Some (App.mkResult [repeat (vec3 0.25 1 0) 21]))
      (App.mkVision 0 App.initialHandState) = Some st' /\
    App.lastVideoTime st' = 1 /\
    (isExploding (App.handState st') = true
       <-> distance (vec3 0.25 1 0) (vec3 0.25 1 0) < 0.08) /\
    reference (App.handState st') (mkViewport 20 11.5)
      = vec3 ((0.25 + 0.25 - 1) * 2.5 * 20) ((1 + 1 - 1) * 2.5 * 11.5) 0.
Proof.
  apply (pinch_sets_explosion_centre 1 (repeat (vec3 0.25 1 0) 21) []
           (vec3 0.25 1 0) (vec3 0.25 1 0) (vec3 0.25 1 0) (vec3 0.25 1 0)
           (App.mkVision 0 App.initialHandState) (mkViewport 20 11.5));
    first [ reflexivity | simpl; lia | simpl; lra ].
Defined.

(** ** More on the drawing tool *)

Lemma draw_when_idle
    (surface : option DrawingCanvas.Surface) (e : DrawingCanvas.PointerEvent)
    (st : DrawingCanvas.State) :
  DrawingCanvas.isDrawing st = false -> DrawingCanvas.draw surface e st = Some st.
Proof. intros Hidle. unfold DrawingCanvas.draw. rewrite Hidle. reflexivity. Qed.

Lemma draw_all_when_idle (surface : option DrawingCanvas.Surface) :
  forall (events : list DrawingCanvas.PointerEvent) (st : DrawingCanvas.State),
    DrawingCanvas.isDrawing st = false ->
    Trace.draw_all surface events st = Some st.
Proof.
  induction events as [| e events IH]; intros st Hidle; [reflexivity |].
  cbn [Trace.draw_all]. rewrite (draw_when_idle surface e st Hidle).
  apply IH. exact Hidle.
Qed.

Lemma draw_all_mouse (sf : DrawingCanvas.Surface) :
  DrawingCanvas.hasContext sf = true ->
  forall (moves : list (R * R)) (pts : list DrawingCanvas.Point2),
    Trace.draw_all (Some sf)
      (map (fun m => DrawingCanvas.MouseEvent (fst m) (snd m)) moves)
      (DrawingCanvas.mkState true pts)
    = Some (DrawingCanvas.mkState true (pts ++ map (Trace.captured sf) moves)).
Proof.
  intros Hctx. induction moves as [| m moves IH]; intros pts.
  - cbn. rewrite app_nil_r. reflexivity.
  - cbn [map Trace.draw_all]. unfold DrawingCanvas.draw.
    cbn [DrawingCanvas.isDrawing negb DrawingCanvas.client
         DrawingCanvas.pointsRef].
    rewrite Hctx. cbn [negb]. rewrite IH. rewrite <- app_assoc. reflexivity.
Qed.

(** X20.  A press while idle captures nothing, not even the point pressed: the
    stroke starts empty, and a release without a move in between does not
    invoke the callback and leaves the state of [App] alone. *)
Theorem press_and_release_draws_nothing
    (surface : option DrawingCanvas.Surface) (e : DrawingCanvas.PointerEvent)
    (c : option DrawingCanvas.Canvas) (w : DrawingCanvas.Window)
    (a : App.State) (st : DrawingCanvas.State) :
  DrawingCanvas.isDrawing st = false ->
  exists st1,
    DrawingCanvas.startDrawing surface e st = Some st1 /\
    DrawingCanvas.isDrawing st1 = true /\
    DrawingCanvas.pointsRef st1 = [] /\
    snd (DrawingCanvas.stopDrawing c w st1) = None /\
    fst (App.release c w a st1) = a.
Proof.
  intros Hidle. exists (DrawingCanvas.mkState true []).
  split; [| repeat split].
  unfold DrawingCanvas.startDrawing.
  rewrite draw_when_idle by (cbn; exact Hidle). reflexivity.
Qed.

Lemma press_and_release_draws_nothing_witness :
  exists st1,
    DrawingCanvas.startDrawing
      (Some (DrawingCanvas.mkSurface (DrawingCanvas.mkCanvas 800 600) true 0 0))
      (DrawingCanvas.MouseEvent 400 300)
      (DrawingCanvas.mkState false [DrawingCanvas.pt2 1 1]) = Some st1 /\
    DrawingCanvas.isDrawing st1 = true /\
    DrawingCanvas.pointsRef st1 = [] /\
    snd (DrawingCanvas.stopDrawing (Some (DrawingCanvas.mkCanvas 800 600))
           (DrawingCanvas.mkWindow 800 600) st1) = None /\
    fst (App.release (Some (DrawingCanvas.mkCanvas 800 600))
           (DrawingCanvas.mkWindow 800 600) (App.mkState SPHERE true []) st1)
      = App.mkState SPHERE true [].
Proof.
  apply (press_and_release_draws_nothing
           (Some (DrawingCanvas.mkSurface (DrawingCanvas.mkCanvas 800 600)
                    true 0 0))
           (DrawingCanvas.MouseEvent 400 300)
           (Some (DrawingCanvas.mkCanvas 800 600))
           (DrawingCanvas.mkWindow 800 600) (App.mkState SPHERE true [])
           (DrawingCanvas.mkState false [DrawingCanvas.pt2 1 1])).
  reflexivity.
Defined.

(** X21.  A mouse stroke: press while idle, then one or more moves, then release.
    The callback receives one point per move, in the order of the moves,
    each the mouse position relative to the canvas corner, normalized; the
    pressed position and the points of an earlier stroke are not among
    them. *)
Theorem stroke_yields_its_moves
    (sf : DrawingCanvas.Surface) (w : DrawingCanvas.Window)
    (press : DrawingCanvas.PointerEvent) (moves : list (R * R))
    (st : DrawingCanvas.State) :
  DrawingCanvas.isDrawing st = false ->
  DrawingCanvas.hasContext sf = true ->
  moves <> [] ->
  exists st1 st2,
    DrawingCanvas.startDrawing (Some sf) press st = Some st1 /\
    Trace.draw_all (Some sf)
      (map (fun m => DrawingCanvas.MouseEvent (fst m) (snd m)) moves) st1
      = Some st2 /\
    snd (DrawingCanvas.stopDrawing (Some (DrawingCanvas.canvas sf)) w st2)
      = Some (map (fun m =>
                     DrawingCanvas.normalize
                       (DrawingCanvas.width (DrawingCanvas.canvas sf))
                       (DrawingCanvas.height (DrawingCanvas.canvas sf))
                       (Trace.captured sf m))
                  moves).
Proof.
  intros Hidle Hctx Hmoves.
  exists (DrawingCanvas.mkState true []),
         (DrawingCanvas.mkState true (map (Trace.captured sf) moves)).
  split; [| split].
  - unfold DrawingCanvas.startDrawing.
    rewrite draw_when_idle by (cbn; exact Hidle). reflexivity.
  - rewrite (draw_all_mouse sf Hctx moves []). reflexivity.
  - rewrite stopDrawing_some.
    + cbn [snd DrawingCanvas.pointsRef]. rewrite map_map. reflexivity.
    + cbn [DrawingCanvas.pointsRef]. destruct moves; [contradiction | discriminate].
Qed.

Lemma stroke_yields_its_moves_witness :
  exists st1 st2,
    DrawingCanvas.startDrawing
      (Some (DrawingCanvas.mkSurface (DrawingCanvas.mkCanvas 800 600) true 10 20))
      (DrawingCanvas.MouseEvent 10 20)
      (DrawingCanvas.mkState false [DrawingCanvas.pt2 1 1]) = Some st1 /\
    Trace.draw_all
      (Some (DrawingCanvas.mkSurface (DrawingCanvas.mkCanvas 800 600) true 10 20))
      (map (fun m => DrawingCanvas.MouseEvent (fst m) (snd m))
           [(410, 320); (810, 620)]) st1 = Some st2 /\
    snd (DrawingCanvas.stopDrawing
           (Some (DrawingCanvas.canvas
                    (DrawingCanvas.mkSurface (DrawingCanvas.mkCanvas 800 600)
                       true 10 20)))
           (DrawingCanvas.mkWindow 1024 768) st2)
      = Some (map (fun m =>
                     DrawingCanvas.normalize
                       (DrawingCanvas.width
                          (DrawingCanvas.canvas
                             (DrawingCanvas.mkSurface
                                (DrawingCanvas.mkCanvas 800 600) true 10 20)))
                       (DrawingCanvas.height
                          (DrawingCanvas.canvas
                             (DrawingCanvas.mkSurface
                                (DrawingCanvas.mkCanvas 800 600) true 10 20)))
                       (Trace.captured
                          (DrawingCanvas.mkSurface
                             (DrawingCanvas.mkCanvas 800 600) true 10 20) m))
                  [(410, 320); (810, 620)]).
Proof.
  apply (stroke_yields_its_moves
           (DrawingCanvas.mkSurface (DrawingCanvas.mkCanvas 800 600) true 10 20)
           (DrawingCanvas.mkWindow 1024 768)
           (DrawingCanvas.MouseEvent 10 20) [(410, 320); (810, 620)]
           (DrawingCanvas.mkState false [DrawingCanvas.pt2 1 1]));
    first [ reflexivity | discriminate ].
Defined.

(** X22.  After a release the tool is idle: pointer moves capture nothing, and a
    second release (the mouse leaving the canvas after the button went up)
    passes the same points to the callback once more, which leaves [App]
    in the state the first release put it in. *)
Theorem second_release_repeats_first
    (surface : option DrawingCanvas.Surface)
    (c : option DrawingCanvas.Canvas) (w : DrawingCanvas.Window)
    (events : list DrawingCanvas.PointerEvent)
    (a : App.State) (st : DrawingCanvas.State) :
  let st1 := fst (DrawingCanvas.stopDrawing c w st) in
  Trace.draw_all surface events st1 = Some st1 /\
  DrawingCanvas.stopDrawing c w st1
    = (st1, snd (DrawingCanvas.stopDrawing c w st)) /\
  App.release c w (fst (App.release c w a st)) st1 = App.release c w a st.
Proof.
  assert (Hst1 : fst (DrawingCanvas.stopDrawing c w st)
                 = DrawingCanvas.mkState false (DrawingCanvas.pointsRef st)).
  { unfold DrawingCanvas.stopDrawing.
    destruct (0 <? List.length (DrawingCanvas.pointsRef st))%nat; reflexivity. }
  cbv zeta. rewrite Hst1. split; [| split].
  - apply draw_all_when_idle. reflexivity.
  - unfold DrawingCanvas.stopDrawing. cbn [DrawingCanvas.pointsRef].
    destruct (0 <? List.length (DrawingCanvas.pointsRef st))%nat; reflexivity.
  - unfold App.release, DrawingCanvas.stopDrawing.
    cbn [DrawingCanvas.pointsRef].
    destruct (0 <? List.length (DrawingCanvas.pointsRef st))%nat; reflexivity.
Qed.

Lemma ratio_in_unit (x w : R) : 0 < w -> 0 <= x <= w -> 0 <= x / w <= 1.
Proof.
  intros Hw Hx.
  assert (Hq : x / w * w = x) by (field; lra).
  split; nra.
Qed.

(** X23.  Points captured inside the canvas are sent into the square
    [-1, 1] x [-1, 1] of the plane z = 0. *)
Theorem points_inside_canvas_are_normalized
    (c : DrawingCanvas.Canvas) (w : DrawingCanvas.Window)
    (st : DrawingCanvas.State) :
  0 < DrawingCanvas.width c ->
  0 < DrawingCanvas.height c ->
  DrawingCanvas.pointsRef st <> [] ->
  Forall (fun p => 0 <= DrawingCanvas.px p <= DrawingCanvas.width c /\
                   0 <= DrawingCanvas.py p <= DrawingCanvas.height c)
         (DrawingCanvas.pointsRef st) ->
  exists out,
    snd (DrawingCanvas.stopDrawing (Some c) w st) = Some out /\
    List.length out = List.length (DrawingCanvas.pointsRef st) /\
    Forall (fun q => -1 <= vx q <= 1 /\ -1 <= vy q <= 1 /\ vz q = 0) out.
Proof.
  intros Hw Hh Hne Hin.
  rewrite (stopDrawing_some (Some c) w st Hne). cbn [snd].
  eexists. split; [reflexivity |]. split; [apply length_map |].
  apply Forall_map. eapply Forall_impl; [| exact Hin].
  intros p [[Hx0 Hx1] [Hy0 Hy1]]. unfold DrawingCanvas.normalize. cbn [vx vy vz].
  pose proof (ratio_in_unit _ _ Hw (conj Hx0 Hx1)).
  pose proof (ratio_in_unit _ _ Hh (conj Hy0 Hy1)).
  repeat split; lra.
Qed.

Lemma points_inside_canvas_are_normalized_witness :
  exists out,
    snd (DrawingCanvas.stopDrawing (Some (DrawingCanvas.mkCanvas 800 600))
           (DrawingCanvas.mkWindow 800 600)
           (DrawingCanvas.mkState true
              [DrawingCanvas.pt2 0 600; DrawingCanvas.pt2 400 300]))
      = Some out /\
    List.length out
      = List.length
          (DrawingCanvas.pointsRef
             (DrawingCanvas.mkState true
                [DrawingCanvas.pt2 0 600; DrawingCanvas.pt2 400 300])) /\
    Forall (fun q => -1 <= vx q <= 1 /\ -1 <= vy q <= 1 /\ vz q = 0) out.
Proof.
  apply (points_inside_canvas_are_normalized
           (DrawingCanvas.mkCanvas 800 600) (DrawingCanvas.mkWindow 800 600)
           (DrawingCanvas.mkState true
              [DrawingCanvas.pt2 0 600; DrawingCanvas.pt2 400 300])).
  - simpl. lra.
  - simpl. lra.
  - discriminate.
  - repeat constructor; simpl; lra.
Defined.

(** X24.  From the drawing to the targets.  After the release of a stroke with
    captured points, [App] shows the custom shape with the overlay closed,
    and the target of a slot [i] that is not exiled follows the captured
    point of index [i mod length]: normalized, times [5 * diffusion], within
    0.1 on x and y, and within 0.25 of the plane z = 0. *)
Theorem drawing_becomes_target_shape
    (c : DrawingCanvas.Canvas) (w : DrawingCanvas.Window)
    (a : App.State) (dc : DrawingCanvas.State)
    (N : nat) (config : ParticleConfig) (s : Source) (i : nat) :
  DrawingCanvas.pointsRef dc <> [] ->
  unit_draws s ->
  (i < N)%nat ->
  exiled (target_count N (density config)) i = false ->
  let a' := fst (App.release (Some c) w a dc) in
  App.shape a' = CUSTOM /\
  App.isDrawing a' = false /\
  exists t q,
    nth_error
      (fst (update_targets N (App.shape a') config (App.customPoints a') s)) i
      = Some t /\
    nth_error (DrawingCanvas.pointsRef dc)
      (i mod List.length (DrawingCanvas.pointsRef dc)) = Some q /\
    -0.1 <= vx t - ((DrawingCanvas.px q / DrawingCanvas.width c) * 2 - 1)
                     * 5 * diffusion config <= 0.1 /\
    -0.1 <= vy t - (- (DrawingCanvas.py q / DrawingCanvas.height c) * 2 + 1)
                     * 5 * diffusion config <= 0.1 /\
    -0.25 <= vz t <= 0.25.
Proof.
  intros Hne Hs Hi Hin. cbv zeta.
  unfold App.release. rewrite (stopDrawing_some (Some c) w dc Hne).
  cbn [fst App.handlePointsGenerated App.shape App.isDrawing App.customPoints].
  split; [reflexivity |]. split; [reflexivity |].
  destruct (DrawingCanvas.pointsRef dc) as [| q0 qs]; [contradiction |].
  set (f := DrawingCanvas.normalize (DrawingCanvas.width c)
              (DrawingCanvas.height c)).
  destruct (shape_slot N CUSTOM config (map f (q0 :: qs)) s i Hs Hi Hin)
    as (s' & Hs' & Hnth).
  assert (Hmod : (i mod List.length (q0 :: qs) < List.length (q0 :: qs))%nat)
    by (apply Nat.mod_upper_bound; discriminate).
  exists (fst (shape_target CUSTOM (diffusion config) (map f (q0 :: qs)) i s')),
         (nth (i mod List.length (q0 :: qs)) (q0 :: qs) q0).
  split; [exact Hnth |].
  split; [apply nth_error_nth'; exact Hmod |].
  cbn [shape_target map]. rewrite custom_target_run. cbv zeta.
  change (f q0 :: map f qs) with (map f (q0 :: qs)).
  rewrite length_map, map_nth.
  set (q := nth (i mod List.length (q0 :: qs)) (q0 :: qs) q0).
  subst f. unfold DrawingCanvas.normalize. cbn [vx vy vz].
  pose proof (Hs' (cursor s')) as H1.
  pose proof (Hs' (S (cursor s'))) as H2.
  pose proof (Hs' (S (S (cursor s')))) as H3.
  repeat split; lra.
Qed.

Lemma drawing_becomes_target_shape_witness :
  let c := DrawingCanvas.mkCanvas 800 600 in
  let w := DrawingCanvas.mkWindow 800 600 in
  let dc := DrawingCanvas.mkState true
              [DrawingCanvas.pt2 0 600; DrawingCanvas.pt2 400 300] in
  let config := mkConfig 0.8 1.0 "#00ffff" 5.0 in
  let a' := fst (App.release (Some c) w (App.mkState NEBULA true []) dc) in
  App.shape a' = CUSTOM /\
  App.isDrawing a' = false /\
  exists t q,
    nth_error
      (fst (update_targets PARTICLE_COUNT (App.shape a') config
              (App.customPoints a') (constant 0.5))) 5 = Some t /\
    nth_error (DrawingCanvas.pointsRef dc)
      (5 mod List.length (DrawingCanvas.pointsRef dc)) = Some q /\
    -0.1 <= vx t - ((DrawingCanvas.px q / DrawingCanvas.width c) * 2 - 1)
                     * 5 * diffusion config <= 0.1 /\
    -0.1 <= vy t - (- (DrawingCanvas.py q / DrawingCanvas.height c) * 2 + 1)
                     * 5 * diffusion config <= 0.1 /\
    -0.25 <= vz t <= 0.25.
Proof.
  apply (drawing_becomes_target_shape
           (DrawingCanvas.mkCanvas 800 600) (DrawingCanvas.mkWindow 800 600)
           (App.mkState NEBULA true [])
           (DrawingCanvas.mkState true
              [DrawingCanvas.pt2 0 600; DrawingCanvas.pt2 400 300])
           PARTICLE_COUNT (mkConfig 0.8 1.0 "#00ffff" 5.0) (constant 0.5) 5);
    default_slot.
Defined.

(** X25.  [draw] fails (a [TypeError] in the source) exactly when a stroke is in
    progress on a canvas with a context and the event is a touch event with
    no touch point; a mouse event never makes it fail. *)
Theorem draw_fails_only_without_touch
    (surface : option DrawingCanvas.Surface) (e : DrawingCanvas.PointerEvent)
    (st : DrawingCanvas.State) :
  DrawingCanvas.draw surface e st = None <->
  DrawingCanvas.isDrawing st = true /\
  (exists sf, surface = Some sf /\ DrawingCanvas.hasContext sf = true) /\
  e = DrawingCanvas.TouchEvent [].
Proof.
  unfold DrawingCanvas.draw.
  destruct (DrawingCanvas.isDrawing st); cbn [negb].
  - destruct surface as [sf |].
    + destruct (DrawingCanvas.hasContext sf) eqn:Hctx; cbn [negb].
      * destruct e as [x y | [| t ts]]; cbn [DrawingCanvas.client].
        -- split; [discriminate | intros (_ & _ & He); discriminate].
        -- split; [| reflexivity]. intros _. split; [reflexivity |].
           split; [| reflexivity]. exists sf. split; [reflexivity | exact Hctx].
        -- split; [discriminate | intros (_ & _ & He); discriminate].
      * split; [discriminate |].
        intros (_ & (sf' & Hsf & Hctx') & _). injection Hsf as <-. congruence.
    + split; [discriminate | intros (_ & (sf & Hsf & _) & _); discriminate].
  - split; [discriminate | intros (Hd & _); discriminate].
Qed.

(** ** Which way the explosion pushes *)

Lemma component_moves_away (v d c : R) :
  0 <= c -> 0 <= v * d -> d * d <= (d + (v + d * c)) * (d + (v + d * c)).
Proof.
  intros Hc Hvd.
  assert (0 <= d * d * c) by (apply Rmult_le_pos; [nra | assumption]).
  nra.
Qed.

(** X14.  An exploding frame pushes away from the hand: a particle at rest, or
    whose velocity components have the signs of its offset from the
    reference point, is no closer to the reference point after the frame
    than before. *)
Theorem explosion_pushes_away
    (h : HandState) (vp : Viewport) (elapsedTime : R) (i : nat)
    (p t v : Vec3) (s : Source) :
  isExploding h = true ->
  unit_draws s ->
  Spec.aligned (reference h vp) p v ->
  distance p (reference h vp)
    <= distance (fst (fst (step_particle h vp elapsedTime i p t v s)))
         (reference h vp).
Proof.
  intros Hexp Hs (Hx & Hy & Hz).
  rewrite (step_particle_exploding h vp elapsedTime i p t v s Hexp).
  cbv zeta. cbn [fst]. rewrite explode_velocity_run. cbv zeta. cbn [fst].
  set (ref := reference h vp) in *.
  pose proof (explode_dist_pos (vx p - vx ref) (vy p - vy ref)
                (vz p - vz ref)) as Hd.
  set (dist := explode_dist _ _ _) in *.
  unfold distance. cbn [vx vy vz].
  apply sqrt_le_1_alt.
  pose proof (push_factor_nonneg dist _ Hd (proj1 (Hs (cursor s)))) as H1.
  pose proof (push_factor_nonneg dist _ Hd (proj1 (Hs (S (cursor s))))) as H2.
  pose proof (push_factor_nonneg dist _ Hd (proj1 (Hs (S (S (cursor s))))))
    as H3.
  pose proof (component_moves_away _ _ _ H1 Hx) as Gx.
  pose proof (component_moves_away _ _ _ H2 Hy) as Gy.
  pose proof (component_moves_away _ _ _ H3 Hz) as Gz.
  unfold Rdiv. cbn [pow].
  repeat rewrite Rmult_assoc in *.
  lra.
Qed.

Lemma explosion_pushes_away_witness :
  distance (vec3 0.9 0 0)
    (reference (mkHandState true true (vec3 0 0 0) 0.05) (mkViewport 20 11.5))
    <= distance
         (fst (fst (step_particle (mkHandState true true (vec3 0 0 0) 0.05)
                      (mkViewport 20 11.5) 0 0 (vec3 0.9 0 0) (vec3 0 0 0)
                      (vec3 0 0 0) (constant 0.5))))
         (reference (mkHandState true true (vec3 0 0 0) 0.05)
            (mkViewport 20 11.5)).
Proof.
  apply (explosion_pushes_away (mkHandState true true (vec3 0 0 0) 0.05)
           (mkViewport 20 11.5) 0 0 (vec3 0.9 0 0) (vec3 0 0 0) (vec3 0 0 0)
           (constant 0.5)).
  - reflexivity.
  - apply unit_draws_constant. lra.
  - unfold Spec.aligned. simpl. lra.
Defined.
